(** * ARM Message Handling Unit (MHU) mailbox driver

    A shallow embedding of [drivers/mailbox/arm_mhu.c]: the register map
    macros, the channel and controller records, and the four channel
    operations ([mhu_send_data], [mhu_startup], [mhu_shutdown],
    [mhu_last_tx_done]) together with the interrupt handler
    [mbox_handler].

    The C functions read and write three kinds of storage: the driver's own
    records ([struct mhu_ctlr], [struct mhu_chan]), the two [__iomem]
    windows (doorbell registers and payload memory) and ordinary memory
    holding the client's buffers.  They are threaded explicitly through a
    small state-and-log monad; the log records every store, copy, register
    write and call-out in program order. *)

From Stdlib Require Import ZArith NArith List Lia Bool.
From Stdlib Require Strings.Byte.
From stdpp Require Import base option list.
Import ListNotations.
Open Scope Z_scope.

(** ** Register map *)

Module RegisterMap.

Section Captured_idx.
(** [RX_OFFSET(chan)] and [TX_OFFSET(chan)] do not use their parameter:
    their bodies name [idx], the local variable of the function in which
    the macro is expanded.  The section variable is that local. *)
Variable idx : Z.

Definition RX_OFFSET (chan : Z) : Z := idx * 0x20.
Definition RX_STATUS (chan : Z) : Z := RX_OFFSET chan.
Definition RX_SET (chan : Z) : Z := RX_OFFSET chan + 0x8.
Definition RX_CLEAR (chan : Z) : Z := RX_OFFSET chan + 0x10.

Definition TX_OFFSET (chan : Z) : Z := 0x100 + idx * 0x20.
Definition TX_STATUS (chan : Z) : Z := TX_OFFSET chan.
Definition TX_SET (chan : Z) : Z := TX_OFFSET chan + 0x8.
Definition TX_CLEAR (chan : Z) : Z := TX_OFFSET chan + 0x10.
End Captured_idx.

Definition PAYLOAD_MAX_SIZE : Z := 0x200.
Definition PAYLOAD_OFFSET : Z := 0x400.
Definition RX_PAYLOAD (chan : Z) : Z := chan * PAYLOAD_OFFSET.
Definition TX_PAYLOAD (chan : Z) : Z := chan * PAYLOAD_OFFSET + PAYLOAD_MAX_SIZE.

(** Modelled from the spec: [CHANNEL_MAX] is defined in [arm_mhu.h], which
    is not part of the sources at hand.  The specification fixes the number
    of channels at two (low and high priority), and [mhu_probe] names
    exactly two channels in [channel_names]. *)
Definition CHANNEL_MAX : Z := 2.

Definition valid_channel (ch : Z) : Prop := 0 <= ch < CHANNEL_MAX.

(** Width in bytes of one doorbell register ([readl]/[writel] are 32-bit
    accesses). *)
Definition REG_WIDTH : Z := 4.

End RegisterMap.
Export RegisterMap.

(** ** Data model *)

(** Modelled from the spec: [struct mhu_data_buf] is declared in [arm_mhu.h],
    which is not part of the sources at hand.  The fields are the ones the
    driver dereferences: the command word, and for each direction a buffer
    pointer with its length.  Pointers are addresses, [0] being [NULL];
    lengths are natural numbers, the command is a [u32]. *)
Record mhu_data_buf : Type := {
  cmd : Z;
  tx_size : N;
  tx_buf : Z;
  rx_size : N;
  rx_buf : Z
}.

(** [struct mhu_chan].  The [ctlr] back pointer is not represented: there is
    one controller, and it is the one the state carries.  [data] is a
    pointer to a descriptor the driver never writes through; [None] is
    [NULL]. *)
Record mhu_chan : Type := {
  index : Z;
  rx_irq : Z;
  data : option mhu_data_buf
}.

(** [struct mhu_ctlr]: the two mapped windows and the channel array.  A
    [struct mbox_chan *link] is represented by its position in
    [mbox_con.chans]; [mhu_probe] sets [l[idx].con_priv = &channels[idx]],
    so the same position selects the [mhu_chan]. *)
Record mhu_ctlr : Type := {
  mbox_base : Z;
  payload_base : Z;
  channels : list mhu_chan
}.

Inductive irqreturn_t : Type := IRQ_NONE | IRQ_HANDLED.

Definition EINVAL : Z := 22.
Definition EBUSY : Z := 16.
Definition ENXIO : Z := 6.

(** The machine state the driver runs in. *)
Record world : Type := {
  ctlr : mhu_ctlr;
  (** value of each doorbell STAT register, by io address *)
  regs : Z -> Z;
  (** payload window ([__iomem]), by io address *)
  iomem : Z -> Byte.byte;
  (** ordinary memory: the clients' buffers *)
  ram : Z -> Byte.byte;
  (** installed interrupt actions: line and [dev_id] (the link) *)
  irq_table : list (Z * nat)
}.

(** Effects in program order. *)
Inductive event : Type :=
| EvStoreData (link : nat) (d : option mhu_data_buf)
| EvMemcpyToIo (dst src : Z) (n : N)
| EvMemcpyFromIo (dst src : Z) (n : N)
| EvWritel (v a : Z)
| EvReceivedData (link : nat) (d : mhu_data_buf)
| EvRequestIrq (irq : Z) (link : nat)
| EvFreeIrq (irq : Z) (link : nat).

(** ** The monad *)

Definition M (A : Type) : Type := world -> option (A * world * list event).

Definition ret {A} (a : A) : M A := fun w => Some (a, w, []).

Definition bind {A B} (m : M A) (k : A -> M B) : M B :=
  fun w =>
    match m w with
    | None => None
    | Some (a, w1, l1) =>
        match k a w1 with
        | None => None
        | Some (b, w2, l2) => Some (b, w2, l1 ++ l2)
        end
    end.

Notation "x <- m ;; k" := (bind m (fun x => k))
  (at level 100, m at level 99, right associativity).
Notation "m ;;; k" := (bind m (fun _ => k))
  (at level 100, right associativity).

Definition when (b : bool) (m : M unit) : M unit := if b then m else ret tt.

(** ** Primitives *)

Definition to_u32 (x : Z) : Z := Z.land x 0xFFFFFFFF.

Definition set_regs (r : Z -> Z) (w : world) : world :=
  {| ctlr := ctlr w; regs := r; iomem := iomem w; ram := ram w;
     irq_table := irq_table w |}.
Definition set_iomem (m : Z -> Byte.byte) (w : world) : world :=
  {| ctlr := ctlr w; regs := regs w; iomem := m; ram := ram w;
     irq_table := irq_table w |}.
Definition set_ram (m : Z -> Byte.byte) (w : world) : world :=
  {| ctlr := ctlr w; regs := regs w; iomem := iomem w; ram := m;
     irq_table := irq_table w |}.
Definition set_irq_table (t : list (Z * nat)) (w : world) : world :=
  {| ctlr := ctlr w; regs := regs w; iomem := iomem w; ram := ram w;
     irq_table := t |}.
Definition set_channels (cs : list mhu_chan) (w : world) : world :=
  {| ctlr := {| mbox_base := mbox_base (ctlr w);
                payload_base := payload_base (ctlr w);
                channels := cs |};
     regs := regs w; iomem := iomem w; ram := ram w;
     irq_table := irq_table w |}.
Definition set_data (d : option mhu_data_buf) (c : mhu_chan) : mhu_chan :=
  {| index := index c; rx_irq := rx_irq c; data := d |}.

(** Modelled from the spec: the behaviour of the MHU hardware is not in the
    driver.  Each doorbell is a STAT/SET/CLEAR triple (the register table in
    the driver gives SET at STAT + 0x08 and CLEAR at STAT + 0x10, one triple
    every 0x20 bytes): a write to SET raises the written bits in STAT, a
    write to CLEAR lowers them, STAT itself is read-only.  [base] is where
    the register block is mapped. *)
Definition hw_writel (base : Z) (r : Z -> Z) (v a : Z) : Z -> Z :=
  let off := (a - base) mod 0x20 in
  if off =? 0x08 then
    fun s => if s =? a - 0x08 then Z.lor (r s) v else r s
  else if off =? 0x10 then
    fun s => if s =? a - 0x10 then Z.ldiff (r s) v else r s
  else r.

Definition readl (a : Z) : M Z :=
  fun w => Some (to_u32 (regs w a), w, []).

Definition writel (v a : Z) : M unit :=
  fun w =>
    Some (tt,
          set_regs (hw_writel (mbox_base (ctlr w)) (regs w) (to_u32 v) a) w,
          [EvWritel (to_u32 v) a]).

Definition in_range (base : Z) (n : N) (a : Z) : bool :=
  (base <=? a) && (a <? base + Z.of_N n).

(** [memcpy(dst, src, n)] between two byte stores. *)
Definition copy_bytes (to from : Z -> Byte.byte) (dst src : Z) (n : N)
  : Z -> Byte.byte :=
  fun a => if in_range dst n a then from (src + (a - dst)) else to a.

(** The driver calls [memcpy] in both directions; the two primitives differ
    in which operand is the [__iomem] one. *)
Definition memcpy_toio (dst src : Z) (n : N) : M unit :=
  fun w =>
    Some (tt, set_iomem (copy_bytes (iomem w) (ram w) dst src n) w,
          [EvMemcpyToIo dst src n]).

Definition memcpy_fromio (dst src : Z) (n : N) : M unit :=
  fun w =>
    Some (tt, set_ram (copy_bytes (ram w) (iomem w) dst src n) w,
          [EvMemcpyFromIo dst src n]).

Definition read_bytes (m : Z -> Byte.byte) (a : Z) (n : N) : list Byte.byte :=
  map (fun i => m (a + Z.of_nat i)) (seq 0 (N.to_nat n)).

(** [chan = link->con_priv], read as a value. *)
Definition get_chan (link : nat) : M mhu_chan :=
  fun w =>
    match channels (ctlr w) !! link with
    | Some c => Some (c, w, [])
    | None => None
    end.

Definition get_ctlr : M mhu_ctlr := fun w => Some (ctlr w, w, []).

(** [chan->data = d]. *)
Definition store_data (link : nat) (d : option mhu_data_buf) : M unit :=
  fun w =>
    match channels (ctlr w) !! link with
    | Some c =>
        Some (tt, set_channels (<[link := set_data d c]> (channels (ctlr w))) w,
              [EvStoreData link d])
    | None => None
    end.

(** Modelled from the spec: [mbox_chan_received_data(link, data)] belongs to
    the mailbox framework, which is not part of the sources at hand; it
    "notifies the client with ownership of the now-filled descriptor".  The
    call is recorded with the descriptor it passes. *)
Definition mbox_chan_received_data (link : nat) (d : mhu_data_buf) : M unit :=
  fun w => Some (tt, w, [EvReceivedData link d]).

Definition irq_claimed (irq : Z) (t : list (Z * nat)) : bool :=
  existsb (fun e => fst e =? irq) t.

(** Modelled from the spec: [request_threaded_irq] and [free_irq] belong to
    the interrupt core, which is not part of the sources at hand.  Start
    "installs the interrupt handler" and fails when "the interrupt line
    cannot be claimed (e.g., already owned)"; the driver passes
    [IRQF_ONESHOT] without [IRQF_SHARED], so a line has one owner. *)
Definition request_threaded_irq (irq : Z) (link : nat) : M Z :=
  fun w =>
    if irq_claimed irq (irq_table w) then Some (- EBUSY, w, [])
    else Some (0, set_irq_table ((irq, link) :: irq_table w) w,
               [EvRequestIrq irq link]).

Definition irq_action_is (irq : Z) (link : nat) (e : Z * nat) : bool :=
  (fst e =? irq) && Nat.eqb (snd e) link.

(** Modelled from the spec: Stop "uninstalls the interrupt handler". *)
Definition free_irq (irq : Z) (link : nat) : M unit :=
  fun w =>
    Some (tt,
          set_irq_table
            (List.filter (fun e => negb (irq_action_is irq link e)) (irq_table w)) w,
          [EvFreeIrq irq link]).

(** ** The driver *)

Definition mbox_handler (irq : Z) (link : nat) : M irqreturn_t :=
  chan <- get_chan link ;;
  c <- get_ctlr ;;
  let mbox_base := mbox_base c in
  let payload := payload_base c in
  let idx := index chan in
  status <- readl (mbox_base + RX_STATUS idx idx) ;;
  if negb (status =? 0) && (irq =? rx_irq chan) then
    match data chan with
    | None => ret IRQ_NONE (* spurious *)
    | Some data =>
        when (negb (rx_buf data =? 0))
             (memcpy_fromio (rx_buf data) (payload + RX_PAYLOAD idx)
                            (rx_size data)) ;;;
        store_data link None ;;;
        mbox_chan_received_data link data ;;;
        writel (Z.lnot 0) (mbox_base + RX_CLEAR idx idx) ;;;
        ret IRQ_HANDLED
    end
  else ret IRQ_HANDLED.

Definition mhu_send_data (link : nat) (msg : option mhu_data_buf) : M Z :=
  chan <- get_chan link ;;
  c <- get_ctlr ;;
  let mbox_base := mbox_base c in
  let payload := payload_base c in
  let idx := index chan in
  match msg with
  | None => ret (- EINVAL)
  | Some data =>
      store_data link (Some data) ;;;
      when (negb (tx_buf data =? 0))
           (memcpy_toio (payload + TX_PAYLOAD idx) (tx_buf data)
                        (tx_size data)) ;;;
      writel (cmd data) (mbox_base + TX_SET idx idx) ;;;
      ret 0
  end.

Definition mhu_startup (link : nat) : M Z :=
  chan <- get_chan link ;;
  let mbox_irq := rx_irq chan in
  err <- request_threaded_irq mbox_irq link ;;
  ret err.

Definition mhu_shutdown (link : nat) : M unit :=
  chan <- get_chan link ;;
  store_data link None ;;;
  free_irq (rx_irq chan) link.

Definition mhu_last_tx_done (link : nat) : M bool :=
  chan <- get_chan link ;;
  c <- get_ctlr ;;
  let mbox_base := mbox_base c in
  let idx := index chan in
  status <- readl (mbox_base + TX_STATUS idx idx) ;;
  ret (status =? 0).

(** ** Construction *)

(** What the platform hands to [mhu_probe]: the two memory resources, already
    mapped ([None]: the resource is missing), and the interrupt number of
    each channel (negative: none).  Mapping and registration with the
    mailbox framework are taken to succeed. *)
Record platform_device : Type := {
  mem_resource : nat -> option Z;
  platform_get_irq : nat -> Z
}.

(** The loop of [mhu_probe] over [idx = from, ..., from + n - 1]; allocation
    is taken to succeed, and [devm_kzalloc] zeroes the controller, so every
    [data] starts out [NULL]. *)
Fixpoint probe_channels (pdev : platform_device) (from n : nat)
  : option (list mhu_chan) :=
  match n with
  | O => Some []
  | S n' =>
      let irq := platform_get_irq pdev from in
      if irq <? 0 then None
      else
        match probe_channels pdev (S from) n' with
        | Some cs =>
            Some ({| index := Z.of_nat from; rx_irq := irq; data := None |} :: cs)
        | None => None
        end
  end.

Definition mhu_probe (pdev : platform_device) : Z + mhu_ctlr :=
  match mem_resource pdev 0%nat with
  | None => inl (- ENXIO)
  | Some mbox =>
      match mem_resource pdev 1%nat with
      | None => inl (- ENXIO)
      | Some payload =>
          match probe_channels pdev 0 (Z.to_nat CHANNEL_MAX) with
          | None => inl (- ENXIO)
          | Some cs =>
              inr {| mbox_base := mbox; payload_base := payload;
                     channels := cs |}
          end
      end
  end.

(** The state right after a successful probe: nothing is installed yet. *)
Definition boot (c : mhu_ctlr) (r : Z -> Z) (io mem : Z -> Byte.byte) : world :=
  {| ctlr := c; regs := r; iomem := io; ram := mem; irq_table := [] |}.

(** ** The peer processor *)

Module Peer.

(** [poke m a bs]: memory [m] with the bytes [bs] written from address [a]
    on. *)
Fixpoint poke (m : Z -> Byte.byte) (a : Z) (bs : list Byte.byte)
  : Z -> Byte.byte :=
  match bs with
  | [] => m
  | b :: bs' => poke (fun x => if x =? a then b else m x) (a + 1) bs'
  end.

(** Modelled from the spec: the remote processor is simulated hardware.  It
    deposits a payload in the receive slot of a channel and rings the
    receive doorbell with the bits [v]. *)
Definition ring (ch : Z) (v : Z) (bs : list Byte.byte) (w : world) : world :=
  let c := ctlr w in
  set_regs
    (fun s => if s =? mbox_base c + RX_STATUS ch ch
              then Z.lor (regs w s) (to_u32 v) else regs w s)
    (set_iomem (poke (iomem w) (payload_base c + RX_PAYLOAD ch) bs) w).

(** Modelled from the spec: the peer acknowledges a transmission by clearing
    the transmit status bits of the channel. *)
Definition ack (ch : Z) (w : world) : world :=
  let c := ctlr w in
  set_regs
    (fun s => if s =? mbox_base c + TX_STATUS ch ch
              then Z.ldiff (regs w s) 0xFFFFFFFF else regs w s)
    w.

End Peer.

(** ** Operations as a transition system *)

(** The entry points through which the channel state can be reached (the four
    [mhu_ops] callbacks and the interrupt handler) and the two moves of the
    peer. *)
Inductive op : Type :=
| OpSend (link : nat) (msg : option mhu_data_buf)
| OpStartup (link : nat)
| OpShutdown (link : nat)
| OpLastTxDone (link : nat)
| OpIrq (irq : Z) (link : nat)
| OpPeerRing (ch v : Z) (bs : list Byte.byte)
| OpPeerAck (ch : Z).

Inductive result : Type :=
| RInt (z : Z)
| RUnit
| RBool (b : bool)
| RIrq (r : irqreturn_t).

Definition returning {A} (f : A -> result) (m : M A) : M result :=
  fun w => match m w with
           | Some (a, w', l) => Some (f a, w', l)
           | None => None
           end.

Definition step (o : op) : M result :=
  match o with
  | OpSend link msg => returning RInt (mhu_send_data link msg)
  | OpStartup link => returning RInt (mhu_startup link)
  | OpShutdown link => returning (fun _ => RUnit) (mhu_shutdown link)
  | OpLastTxDone link => returning RBool (mhu_last_tx_done link)
  | OpIrq irq link => returning RIrq (mbox_handler irq link)
  | OpPeerRing ch v bs => fun w => Some (RUnit, Peer.ring ch v bs w, [])
  | OpPeerAck ch => fun w => Some (RUnit, Peer.ack ch w, [])
  end.

Fixpoint run (os : list op) : M (list result) :=
  fun w =>
    match os with
    | [] => Some ([], w, [])
    | o :: os' =>
        match step o w with
        | None => None
        | Some (r, w1, l1) =>
            match run os' w1 with
            | None => None
            | Some (rs, w2, l2) => Some (r :: rs, w2, l1 ++ l2)
            end
        end
    end.

(** The driver entry points of [o] act on channel [link]; the peer's moves
    touch the hardware only. *)
Definition on_link (link : nat) (o : op) : Prop :=
  match o with
  | OpSend k _ | OpStartup k | OpShutdown k | OpLastTxDone k | OpIrq _ k =>
      k = link
  | OpPeerRing _ _ _ | OpPeerAck _ => True
  end.

(** ** Observations *)

(** [pending w link]: the [data] slot of channel [link]. *)
Definition pending (w : world) (link : nat) : option mhu_data_buf :=
  match channels (ctlr w) !! link with
  | Some c => data c
  | None => None
  end.

(** What a caller sees of a run: the value returned and the effects. *)
Definition outputs {A} (r : option (A * world * list event))
  : option (A * list event) :=
  match r with
  | Some (a, _, l) => Some (a, l)
  | None => None
  end.

(** The state a run ends in ([w] itself when the run has no outcome). *)
Definition after {A} (r : option (A * world * list event)) (w : world) : world :=
  match r with
  | Some (_, w', _) => w'
  | None => w
  end.

(** The state after [chan->data = d] on channel [link]. *)
Definition stored (link : nat) (d : option mhu_data_buf) (chan : mhu_chan)
    (w : world) : world :=
  set_channels (<[link := set_data d chan]> (channels (ctlr w))) w.

(** The value [readl] returns for the two status registers of a channel. *)
Definition rx_status_of (w : world) (chan : mhu_chan) : Z :=
  to_u32 (regs w (mbox_base (ctlr w) + RX_STATUS (index chan) (index chan))).
Definition tx_status_of (w : world) (chan : mhu_chan) : Z :=
  to_u32 (regs w (mbox_base (ctlr w) + TX_STATUS (index chan) (index chan))).

(** The two payload slots of a channel. *)
Inductive direction : Type := Receive | Transmit.

Definition payload_offset (dir : direction) (ch : Z) : Z :=
  match dir with
  | Receive => RX_PAYLOAD ch
  | Transmit => TX_PAYLOAD ch
  end.

(** Two slots of [PAYLOAD_MAX_SIZE] bytes starting at [a] and [b] share no
    byte. *)
Definition slots_disjoint (a b : Z) : Prop :=
  a + PAYLOAD_MAX_SIZE <= b \/ b + PAYLOAD_MAX_SIZE <= a.

(** The three registers of a doorbell. *)
Inductive regkind : Type := Status | Set_ | Clear.

Definition reg_offset (dir : direction) (k : regkind) (ch : Z) : Z :=
  match dir, k with
  | Receive, Status => RX_STATUS ch ch
  | Receive, Set_ => RX_SET ch ch
  | Receive, Clear => RX_CLEAR ch ch
  | Transmit, Status => TX_STATUS ch ch
  | Transmit, Set_ => TX_SET ch ch
  | Transmit, Clear => TX_CLEAR ch ch
  end.

(** Index and interrupt line are wired at construction. *)
Definition same_wiring (a b : mhu_chan) : Prop :=
  index a = index b /\ rx_irq a = rx_irq b.

(** [w] carries the controller [c] built by [mhu_probe], up to the contents
    of the [data] slots. *)
Definition descends (c : mhu_ctlr) (w : world) : Prop :=
  mbox_base (ctlr w) = mbox_base c /\
  payload_base (ctlr w) = payload_base c /\
  Forall2 same_wiring (channels (ctlr w)) (channels c).

(** Two states that a driver call on channel [link] cannot tell apart. *)
Definition agree (link : nat) (w w' : world) : Prop :=
  mbox_base (ctlr w) = mbox_base (ctlr w') /\
  payload_base (ctlr w) = payload_base (ctlr w') /\
  channels (ctlr w) !! link = channels (ctlr w') !! link /\
  regs w = regs w' /\ iomem w = iomem w' /\ ram w = ram w' /\
  irq_table w = irq_table w'.

(** ** Outcomes *)

(** A send that carries a payload: the slot is written, then the bytes are
    copied, then the doorbell is rung; the transmit slot reads back as the
    client's buffer and no byte outside the copied range changes. *)
Definition sends (w : world) (link : nat) (chan : mhu_chan) (d : mhu_data_buf)
  : Prop :=
  let idx := index chan in
  let dst := payload_base (ctlr w) + TX_PAYLOAD idx in
  exists w',
    mhu_send_data link (Some d) w =
    Some (0, w',
          [EvStoreData link (Some d);
           EvMemcpyToIo dst (tx_buf d) (tx_size d);
           EvWritel (to_u32 (cmd d)) (mbox_base (ctlr w) + TX_SET idx idx)]) /\
    read_bytes (iomem w') dst (tx_size d) =
    read_bytes (ram w) (tx_buf d) (tx_size d) /\
    (forall a, in_range dst (tx_size d) a = false -> iomem w' a = iomem w a) /\
    ram w' = ram w.

(** A delivery: the payload is copied out of the receive slot, the [data]
    slot is emptied, the client is called with the descriptor, and the
    doorbell is acknowledged, in this order. *)
Definition delivers (w : world) (link : nat) (chan : mhu_chan)
    (d : mhu_data_buf) (irq : Z) : Prop :=
  let idx := index chan in
  let src := payload_base (ctlr w) + RX_PAYLOAD idx in
  exists w',
    mbox_handler irq link w =
    Some (IRQ_HANDLED, w',
          [EvMemcpyFromIo (rx_buf d) src (rx_size d);
           EvStoreData link None;
           EvReceivedData link d;
           EvWritel 0xFFFFFFFF (mbox_base (ctlr w) + RX_CLEAR idx idx)]) /\
    read_bytes (ram w') (rx_buf d) (rx_size d) =
    read_bytes (iomem w) src (rx_size d) /\
    (forall a, in_range (rx_buf d) (rx_size d) a = false -> ram w' a = ram w a) /\
    iomem w' = iomem w /\
    pending w' link = None /\
    rx_status_of w' chan = 0.

(** The effects of a delivery of [d] on channel [link]. *)
Definition delivery_log (w : world) (link : nat) (chan : mhu_chan)
    (d : mhu_data_buf) : list event :=
  (if rx_buf d =? 0 then []
   else [EvMemcpyFromIo (rx_buf d)
           (payload_base (ctlr w) + RX_PAYLOAD (index chan)) (rx_size d)]) ++
  [EvStoreData link None;
   EvReceivedData link d;
   EvWritel 0xFFFFFFFF
     (mbox_base (ctlr w) + RX_CLEAR (index chan) (index chan))].

(** The three ways a step can write a [data] slot. *)
Inductive slot_write (w : world) (l : list event) (link : nat) (chan : mhu_chan)
  : op -> option mhu_data_buf -> Prop :=
| write_send d : slot_write w l link chan (OpSend link (Some d)) (Some d)
| write_shutdown : slot_write w l link chan (OpShutdown link) None
| write_deliver irq d :
    data chan = Some d -> l = delivery_log w link chan d ->
    slot_write w l link chan (OpIrq irq link) None.

(** ** Counting *)

(** [mbox_chan_received_data] called for channel [link]. *)
Definition is_received (link : nat) (e : event) : bool :=
  match e with
  | EvReceivedData k _ => Nat.eqb k link
  | _ => false
  end.

(** A descriptor stored in the [data] slot of channel [link]. *)
Definition is_submitted (link : nat) (e : event) : bool :=
  match e with
  | EvStoreData k (Some _) => Nat.eqb k link
  | _ => false
  end.

Definition count_events (f : event -> bool) (l : list event) : nat :=
  length (List.filter f l).

Definition occupied (o : option mhu_data_buf) : nat :=
  match o with
  | Some _ => 1%nat
  | None => 0%nat
  end.

(** Offset [a] of the payload window lies in the slot of [ch] for [dir]. *)
Definition in_slot (dir : direction) (ch : Z) (a : Z) : Prop :=
  payload_offset dir ch <= a < payload_offset dir ch + PAYLOAD_MAX_SIZE.

(** ** Sample machine *)

Module Sample.

Definition pdev : platform_device :=
  {| mem_resource := fun i => match i with
                              | O => Some 0x2b1f0000
                              | S O => Some 0x2e000000
                              | _ => None
                              end;
     platform_get_irq := fun i => 36 + Z.of_nat i |}.

Definition the_ctlr : mhu_ctlr :=
  match mhu_probe pdev with
  | inr c => c
  | inl _ => {| mbox_base := 0; payload_base := 0; channels := [] |}
  end.

(** Client memory holds the byte pattern [a mod 256] at address [a]. *)
Definition pattern (a : Z) : Byte.byte :=
  match Byte.of_N (Z.to_N (a mod 256)) with
  | Some b => b
  | None => Byte.x00
  end.

Definition w0 : world :=
  boot the_ctlr (fun _ => 0) (fun _ => Byte.xff) pattern.

Definition small : mhu_data_buf :=
  {| cmd := 1; tx_size := 4; tx_buf := 0x1000; rx_size := 4; rx_buf := 0x2000 |}.

Definition oversized : mhu_data_buf :=
  {| cmd := 1; tx_size := 0x201; tx_buf := 0x1000; rx_size := 0; rx_buf := 0 |}.

Definition silent : mhu_data_buf :=
  {| cmd := 0; tx_size := 0; tx_buf := 0; rx_size := 0; rx_buf := 0 |}.

Definition idle_chan : mhu_chan :=
  {| index := 0; rx_irq := 36; data := None |}.
Definition armed_chan : mhu_chan :=
  {| index := 0; rx_irq := 36; data := Some small |}.

(** After [small] has been sent on channel 0. *)
Definition sent : world := after (mhu_send_data 0 (Some small) w0) w0.

(** The peer then answers with four bytes. *)
Definition answered : world :=
  Peer.ring 0 1 [Byte.xde; Byte.xad; Byte.xbe; Byte.xef] sent.

(** The peer rings while nothing is pending. *)
Definition knocked : world := Peer.ring 0 1 [] w0.

(** A descriptor that asks for more than a slot holds. *)
Definition greedy : mhu_data_buf :=
  {| cmd := 1; tx_size := 0; tx_buf := 0; rx_size := 0x201; rx_buf := 0x3000 |}.
Definition greedy_chan : mhu_chan :=
  {| index := 0; rx_irq := 36; data := Some greedy |}.

(** [greedy] submitted, the transmit slot of channel 0 filled with [AA], the
    peer ringing. *)
Definition overfed : world :=
  Peer.ring 0 1 []
    (set_iomem (fun a => if (0x2e000200 <=? a) && (a <? 0x2e000400)
                         then Byte.xaa else Byte.x11)
               (after (mhu_send_data 0 (Some greedy) w0) w0)).

(** [silent] submitted, the peer ringing. *)
Definition silent_chan : mhu_chan :=
  {| index := 0; rx_irq := 36; data := Some silent |}.
Definition hushed : world :=
  Peer.ring 0 1 [] (after (mhu_send_data 0 (Some silent) w0) w0).

(** The scenario of the specification, as a sequence of operations. *)
Definition scenario : list op :=
  [OpStartup 0; OpSend 0 (Some small);
   OpPeerRing 0 1 [Byte.xde; Byte.xad; Byte.xbe; Byte.xef];
   OpIrq 36 0].

(** The state the scenario ends in. *)
Definition played : world := after (run scenario w0) w0.

End Sample.

(** * Properties *)

(** ** Words and the doorbell registers *)

Section Words.

Lemma to_u32_idem x : to_u32 (to_u32 x) = to_u32 x.
Proof.
  unfold to_u32. now rewrite <- Z.land_assoc, Z.land_diag.
Qed.

Lemma to_u32_all_ones : to_u32 (Z.lnot 0) = 0xFFFFFFFF.
Proof. reflexivity. Qed.

Lemma to_u32_range x : 0 <= to_u32 x < 2 ^ 32.
Proof.
  unfold to_u32. change 0xFFFFFFFF with (Z.ones 32).
  rewrite Z.land_ones by lia. apply Z.mod_pos_bound. lia.
Qed.

Lemma to_u32_cleared x : to_u32 (Z.ldiff x 0xFFFFFFFF) = 0.
Proof.
  unfold to_u32. apply Z.bits_inj'. intros n _.
  rewrite Z.land_spec, Z.ldiff_spec, Z.bits_0.
  destruct (Z.testbit x n), (Z.testbit 0xFFFFFFFF n); reflexivity.
Qed.

Lemma to_u32_raised r c : to_u32 c <> 0 -> to_u32 (Z.lor r (to_u32 c)) <> 0.
Proof.
  intros Hc H. unfold to_u32 in H. rewrite Z.land_lor_distr_l in H.
  apply Z.lor_eq_0_iff in H. destruct H as [_ H].
  fold (to_u32 c) in H. fold (to_u32 (to_u32 c)) in H.
  rewrite to_u32_idem in H. contradiction.
Qed.

Lemma to_u32_raised_zero r : to_u32 (Z.lor r (to_u32 0)) = to_u32 r.
Proof. change (to_u32 0) with 0. now rewrite Z.lor_0_r. Qed.

End Words.

Section Doorbell.

Variables (base : Z) (r : Z -> Z) (v : Z).

Lemma hw_writel_set off :
  off mod 0x20 = 0x08 ->
  forall s, hw_writel base r v (base + off) s =
            if s =? base + off - 0x08 then Z.lor (r s) v else r s.
Proof.
  intros Hoff s. unfold hw_writel.
  replace (base + off - base) with off by lia. now rewrite Hoff.
Qed.

Lemma hw_writel_clear off :
  off mod 0x20 = 0x10 ->
  forall s, hw_writel base r v (base + off) s =
            if s =? base + off - 0x10 then Z.ldiff (r s) v else r s.
Proof.
  intros Hoff s. unfold hw_writel.
  replace (base + off - base) with off by lia. now rewrite Hoff.
Qed.

Lemma TX_SET_decodes idx : TX_SET idx idx mod 0x20 = 0x08.
Proof.
  unfold TX_SET, TX_OFFSET.
  replace (0x100 + idx * 0x20 + 0x8) with (0x8 + (8 + idx) * 0x20) by lia.
  now rewrite Z_mod_plus_full.
Qed.

Lemma RX_CLEAR_decodes idx : RX_CLEAR idx idx mod 0x20 = 0x10.
Proof.
  unfold RX_CLEAR, RX_OFFSET.
  replace (idx * 0x20 + 0x10) with (0x10 + idx * 0x20) by lia.
  now rewrite Z_mod_plus_full.
Qed.

(** Ringing the transmit doorbell raises the bits in the transmit status
    of the same channel. *)
Lemma ring_tx idx :
  hw_writel base r v (base + TX_SET idx idx) (base + TX_STATUS idx idx) =
  Z.lor (r (base + TX_STATUS idx idx)) v.
Proof.
  rewrite hw_writel_set by apply TX_SET_decodes.
  unfold TX_SET, TX_STATUS.
  replace (base + (TX_OFFSET idx idx + 0x8) - 0x08)
    with (base + TX_OFFSET idx idx) by lia.
  now rewrite Z.eqb_refl.
Qed.

(** Acknowledging the receive doorbell lowers the bits in the receive
    status of the same channel. *)
Lemma ack_rx idx :
  hw_writel base r v (base + RX_CLEAR idx idx) (base + RX_STATUS idx idx) =
  Z.ldiff (r (base + RX_STATUS idx idx)) v.
Proof.
  rewrite hw_writel_clear by apply RX_CLEAR_decodes.
  unfold RX_CLEAR, RX_STATUS.
  replace (base + (RX_OFFSET idx idx + 0x10) - 0x10)
    with (base + RX_OFFSET idx idx) by lia.
  now rewrite Z.eqb_refl.
Qed.

End Doorbell.

(** ** Copies *)

Section Copies.

Variables (to from : Z -> Byte.byte) (dst src : Z) (n : N).

Lemma copy_bytes_inside i :
  0 <= i < Z.of_N n ->
  copy_bytes to from dst src n (dst + i) = from (src + i).
Proof.
  intros Hi. unfold copy_bytes, in_range.
  replace ((dst <=? dst + i) && (dst + i <? dst + Z.of_N n)) with true
    by (symmetry; apply andb_true_iff; split; [apply Z.leb_le | apply Z.ltb_lt]; lia).
  f_equal. lia.
Qed.

Lemma copy_bytes_outside a :
  in_range dst n a = false -> copy_bytes to from dst src n a = to a.
Proof. intros Ha. unfold copy_bytes. now rewrite Ha. Qed.

(** Reading the destination back gives the source bytes. *)
Lemma copy_bytes_fidelity :
  read_bytes (copy_bytes to from dst src n) dst n = read_bytes from src n.
Proof.
  unfold read_bytes. apply map_ext_in. intros i Hi.
  apply in_seq in Hi. apply copy_bytes_inside. lia.
Qed.

Lemma read_bytes_length (m : Z -> Byte.byte) a :
  length (read_bytes m a n) = N.to_nat n.
Proof. unfold read_bytes. now rewrite length_map, length_seq. Qed.

End Copies.

(** ** What each entry point does *)

Ltac unfold_driver :=
  unfold mbox_handler, mhu_send_data, mhu_startup, mhu_shutdown,
    mhu_last_tx_done, bind, ret, when, get_chan, get_ctlr, readl, writel,
    store_data, memcpy_toio, memcpy_fromio, mbox_chan_received_data,
    request_threaded_irq, free_irq; cbv beta iota.
Ltac unfold_driver_in X :=
  unfold mbox_handler, mhu_send_data, mhu_startup, mhu_shutdown,
    mhu_last_tx_done, bind, ret, when, get_chan, get_ctlr, readl, writel,
    store_data, memcpy_toio, memcpy_fromio, mbox_chan_received_data,
    request_threaded_irq, free_irq in X; cbv beta iota in X.

(** Push a known fact about the state through the unfolded code. *)
Ltac drive H := repeat (progress (rewrite ?H; cbv beta iota)).
Ltac drive_in H X :=
  repeat (progress (rewrite ?H in X; cbv beta iota in X)).

Section Entry_points.

Variables (w : world) (link : nat) (chan : mhu_chan).
Hypothesis Hchan : channels (ctlr w) !! link = Some chan.

Let mbox := mbox_base (ctlr w).
Let payload := payload_base (ctlr w).
Let idx := index chan.

Lemma stored_lookup d : channels (ctlr (stored link d chan w)) !! link = Some (set_data d chan).
Proof.
  unfold stored. cbn. apply list_lookup_insert_eq.
  eapply lookup_lt_Some, Hchan.
Qed.

Lemma stored_lookup_ne d k :
  k <> link ->
  channels (ctlr (stored link d chan w)) !! k = channels (ctlr w) !! k.
Proof. intros Hk. unfold stored. cbn. now apply list_lookup_insert_ne. Qed.

Lemma send_null : mhu_send_data link None w = Some (- EINVAL, w, []).
Proof. unfold_driver. drive Hchan. reflexivity. Qed.

Lemma send_payload d :
  tx_buf d <> 0 ->
  mhu_send_data link (Some d) w =
  Some (0,
        set_regs (hw_writel mbox (regs w) (to_u32 (cmd d)) (mbox + TX_SET idx idx))
          (set_iomem (copy_bytes (iomem w) (ram w) (payload + TX_PAYLOAD idx)
                                 (tx_buf d) (tx_size d))
             (stored link (Some d) chan w)),
        [EvStoreData link (Some d);
         EvMemcpyToIo (payload + TX_PAYLOAD idx) (tx_buf d) (tx_size d);
         EvWritel (to_u32 (cmd d)) (mbox + TX_SET idx idx)]).
Proof.
  intros Hbuf. apply Z.eqb_neq in Hbuf.
  unfold_driver. drive Hchan. rewrite Hbuf. reflexivity.
Qed.

Lemma send_bare d :
  tx_buf d = 0 ->
  mhu_send_data link (Some d) w =
  Some (0,
        set_regs (hw_writel mbox (regs w) (to_u32 (cmd d)) (mbox + TX_SET idx idx))
          (stored link (Some d) chan w),
        [EvStoreData link (Some d);
         EvWritel (to_u32 (cmd d)) (mbox + TX_SET idx idx)]).
Proof.
  intros Hbuf. unfold_driver. drive Hchan. rewrite Hbuf. reflexivity.
Qed.

Let rx_status := rx_status_of w chan.
Let tx_status := tx_status_of w chan.

Lemma last_tx_done_poll :
  mhu_last_tx_done link w = Some (tx_status =? 0, w, []).
Proof. unfold_driver. drive Hchan. reflexivity. Qed.

(** The handler is entered, but the doorbell is down or the line is not
    this channel's: nothing happens. *)
Lemma handler_not_mine irq :
  rx_status = 0 \/ irq <> rx_irq chan ->
  mbox_handler irq link w = Some (IRQ_HANDLED, w, []).
Proof.
  intros Hno. unfold_driver. drive Hchan.
  fold mbox idx.
  change (to_u32 (regs w (mbox + RX_STATUS idx idx))) with rx_status.
  destruct Hno as [-> | Hirq]; [reflexivity |].
  apply Z.eqb_neq in Hirq. rewrite Hirq, andb_false_r. reflexivity.
Qed.

Lemma handler_spurious irq :
  rx_status <> 0 -> irq = rx_irq chan -> data chan = None ->
  mbox_handler irq link w = Some (IRQ_NONE, w, []).
Proof.
  intros Hst -> Hdata. apply Z.eqb_neq in Hst.
  unfold_driver. drive Hchan. fold mbox idx.
  change (to_u32 (regs w (mbox + RX_STATUS idx idx))) with rx_status.
  rewrite Hst, Z.eqb_refl, Hdata. reflexivity.
Qed.

Lemma handler_deliver irq d :
  rx_status <> 0 -> irq = rx_irq chan -> data chan = Some d ->
  rx_buf d <> 0 ->
  mbox_handler irq link w =
  Some (IRQ_HANDLED,
        set_regs (hw_writel mbox (regs w) 0xFFFFFFFF (mbox + RX_CLEAR idx idx))
          (stored link None chan
             (set_ram (copy_bytes (ram w) (iomem w) (rx_buf d)
                                  (payload + RX_PAYLOAD idx) (rx_size d)) w)),
        [EvMemcpyFromIo (rx_buf d) (payload + RX_PAYLOAD idx) (rx_size d);
         EvStoreData link None;
         EvReceivedData link d;
         EvWritel 0xFFFFFFFF (mbox + RX_CLEAR idx idx)]).
Proof.
  intros Hst -> Hdata Hbuf.
  apply Z.eqb_neq in Hst. apply Z.eqb_neq in Hbuf.
  unfold_driver. drive Hchan. fold mbox idx.
  change (to_u32 (regs w (mbox + RX_STATUS idx idx))) with rx_status.
  rewrite Hst, Z.eqb_refl, Hdata. cbn [negb andb].
  rewrite Hbuf. cbn [negb]. cbn [set_ram ctlr]. drive Hchan.
  reflexivity.
Qed.

Lemma handler_notify_only irq d :
  rx_status <> 0 -> irq = rx_irq chan -> data chan = Some d ->
  rx_buf d = 0 ->
  mbox_handler irq link w =
  Some (IRQ_HANDLED,
        set_regs (hw_writel mbox (regs w) 0xFFFFFFFF (mbox + RX_CLEAR idx idx))
          (stored link None chan w),
        [EvStoreData link None;
         EvReceivedData link d;
         EvWritel 0xFFFFFFFF (mbox + RX_CLEAR idx idx)]).
Proof.
  intros Hst -> Hdata Hbuf. apply Z.eqb_neq in Hst.
  unfold_driver. drive Hchan. fold mbox idx.
  change (to_u32 (regs w (mbox + RX_STATUS idx idx))) with rx_status.
  rewrite Hst, Z.eqb_refl, Hdata. cbn [negb andb].
  rewrite Hbuf. cbn [negb Z.eqb]. unfold ret. drive Hchan.
  reflexivity.
Qed.

Lemma shutdown_runs :
  mhu_shutdown link w =
  Some (tt,
        set_irq_table
          (List.filter (fun e => negb (irq_action_is (rx_irq chan) link e))
                       (irq_table w))
          (stored link None chan w),
        [EvStoreData link None; EvFreeIrq (rx_irq chan) link]).
Proof. unfold_driver. drive Hchan. reflexivity. Qed.

Lemma startup_claims :
  irq_claimed (rx_irq chan) (irq_table w) = false ->
  mhu_startup link w =
  Some (0, set_irq_table ((rx_irq chan, link) :: irq_table w) w,
        [EvRequestIrq (rx_irq chan) link]).
Proof. intros Hfree. unfold_driver. drive Hchan. rewrite Hfree. reflexivity. Qed.

Lemma startup_busy :
  irq_claimed (rx_irq chan) (irq_table w) = true ->
  mhu_startup link w = Some (- EBUSY, w, []).
Proof. intros Hbusy. unfold_driver. drive Hchan. rewrite Hbusy. reflexivity. Qed.

End Entry_points.

(** ** The wiring never changes *)

Section Wiring.

Variable c : mhu_ctlr.

Lemma descends_stored w link chan d :
  channels (ctlr w) !! link = Some chan ->
  descends c w -> descends c (stored link d chan w).
Proof.
  intros Hchan (Hm & Hp & Hcs). repeat split; [exact Hm | exact Hp |].
  unfold stored. cbn.
  destruct (Forall2_lookup_l _ _ _ _ _ Hcs Hchan) as (y & Hy & Hxy).
  rewrite <- (list_insert_id (channels c) link y Hy).
  apply Forall2_insert; [exact Hcs | exact Hxy].
Qed.

Lemma descends_hw w r io mem t :
  descends c w ->
  descends c (set_regs r (set_iomem io (set_ram mem (set_irq_table t w)))).
Proof. intros H. exact H. Qed.

Lemma boot_descends r io mem : descends c (boot c r io mem).
Proof.
  repeat split. cbn. apply Forall2_same_length_lookup. split; [reflexivity |].
  intros i x y Hx Hy. rewrite Hx in Hy. now injection Hy as ->.
Qed.

Lemma step_descends o w r w' l :
  descends c w -> step o w = Some (r, w', l) -> descends c w'.
Proof.
  intros Hd Hstep.
  destruct o as [link msg | link | link | link | irq link | ch v bs | ch];
    cbn in Hstep; unfold returning in Hstep;
    try (injection Hstep as _ <- _; exact Hd).
  all: destruct (channels (ctlr w) !! link) as [chan |] eqn:Hchan;
    [| unfold_driver_in Hstep; drive_in Hchan Hstep; discriminate].
  - destruct msg as [d |].
    + destruct (Z.eq_dec (tx_buf d) 0) as [Hb | Hb].
      * rewrite (send_bare _ _ _ Hchan _ Hb) in Hstep.
        injection Hstep as _ <- _. now apply (descends_stored w link chan).
      * rewrite (send_payload _ _ _ Hchan _ Hb) in Hstep.
        injection Hstep as _ <- _. now apply (descends_stored w link chan).
    + rewrite (send_null _ _ _ Hchan) in Hstep. now injection Hstep as _ <- _.
  - destruct (irq_claimed (rx_irq chan) (irq_table w)) eqn:Hc.
    + rewrite (startup_busy _ _ _ Hchan Hc) in Hstep. now injection Hstep as _ <- _.
    + rewrite (startup_claims _ _ _ Hchan Hc) in Hstep. now injection Hstep as _ <- _.
  - rewrite (shutdown_runs _ _ _ Hchan) in Hstep.
    injection Hstep as _ <- _. now apply (descends_stored w link chan).
  - rewrite (last_tx_done_poll _ _ _ Hchan) in Hstep. now injection Hstep as _ <- _.
  - destruct (Z.eq_dec (rx_status_of w chan) 0) as [Hs | Hs];
      [rewrite (handler_not_mine _ _ _ Hchan irq (or_introl Hs)) in Hstep;
       now injection Hstep as _ <- _ |].
    destruct (Z.eq_dec irq (rx_irq chan)) as [Hi | Hi];
      [| rewrite (handler_not_mine _ _ _ Hchan irq (or_intror Hi)) in Hstep;
         now injection Hstep as _ <- _].
    destruct (data chan) as [d |] eqn:Hdata;
      [| rewrite (handler_spurious _ _ _ Hchan irq Hs Hi Hdata) in Hstep;
         now injection Hstep as _ <- _].
    destruct (Z.eq_dec (rx_buf d) 0) as [Hb | Hb].
    + rewrite (handler_notify_only _ _ _ Hchan irq d Hs Hi Hdata Hb) in Hstep.
      injection Hstep as _ <- _. now apply (descends_stored w link chan).
    + rewrite (handler_deliver _ _ _ Hchan irq d Hs Hi Hdata Hb) in Hstep.
      injection Hstep as _ <- _.
      now apply (descends_stored (set_ram _ w) link chan).
Qed.

Lemma run_descends os : forall w rs w' l,
  descends c w -> run os w = Some (rs, w', l) -> descends c w'.
Proof.
  induction os as [| o os IH]; intros w rs w' l Hd Hrun; cbn in Hrun.
  - now injection Hrun as _ <- _.
  - destruct (step o w) as [[[r w1] l1] |] eqn:Hstep; [| discriminate].
    destruct (run os w1) as [[[rs' w2] l2] |] eqn:Hrest; [| discriminate].
    injection Hrun as _ <- _.
    eapply IH; [eapply step_descends; eassumption | eassumption].
Qed.

End Wiring.

(** [mhu_probe] leaves every slot empty and numbers the channels by
    position. *)
Lemma probe_channels_fresh pdev : forall n from cs i chan,
  probe_channels pdev from n = Some cs -> cs !! i = Some chan ->
  chan = {| index := Z.of_nat (from + i);
            rx_irq := platform_get_irq pdev (from + i)%nat;
            data := None |}.
Proof.
  induction n as [| n IH]; intros from cs i chan Hp Hi; cbn in Hp.
  - injection Hp as <-. discriminate.
  - destruct (platform_get_irq pdev from <? 0); [discriminate |].
    destruct (probe_channels pdev (S from) n) as [cs' |] eqn:Hrest; [| discriminate].
    injection Hp as <-. destruct i as [| i]; cbn in Hi.
    + injection Hi as <-. now rewrite Nat.add_0_r.
    + rewrite (IH _ _ _ _ Hrest Hi). now rewrite Nat.add_succ_r.
Qed.

Lemma mhu_probe_fresh pdev c link chan :
  mhu_probe pdev = inr c -> channels c !! link = Some chan ->
  data chan = None /\ index chan = Z.of_nat link.
Proof.
  unfold mhu_probe. intros Hp Hl.
  destruct (mem_resource pdev 0%nat); [| discriminate].
  destruct (mem_resource pdev 1%nat); [| discriminate].
  destruct (probe_channels pdev 0 (Z.to_nat CHANNEL_MAX)) as [cs |] eqn:Hcs;
    [| discriminate].
  injection Hp as <-. cbn in Hl.
  now rewrite (probe_channels_fresh _ _ _ _ _ _ Hcs Hl).
Qed.

(** ** Channels do not interfere *)

Section Frame.

Variable link : nat.

Lemma agree_refl w : agree link w w.
Proof. repeat split. Qed.

Ltac close_agree :=
  split; [reflexivity | split; [reflexivity |]];
  unfold agree, stored;
  cbn [ctlr mbox_base payload_base channels regs iomem ram irq_table
       set_regs set_iomem set_ram set_irq_table set_channels];
  repeat split; try assumption;
  rewrite !list_lookup_insert_eq by (eapply lookup_lt_Some; eassumption);
  reflexivity.

Lemma step_agree o w1 w2 :
  agree link w1 w2 -> on_link link o ->
  match step o w1, step o w2 with
  | Some (r1, w1', l1), Some (r2, w2', l2) =>
      r1 = r2 /\ l1 = l2 /\ agree link w1' w2'
  | None, None => True
  | _, _ => False
  end.
Proof.
  destruct w1 as [[mb1 pb1 cs1] r1 io1 m1 t1].
  destruct w2 as [[mb2 pb2 cs2] r2 io2 m2 t2].
  unfold agree at 1.
  cbn [ctlr mbox_base payload_base channels regs iomem ram irq_table].
  intros (<- & <- & Hl & <- & <- & <- & <-) Hon.
  set (W1 := {| ctlr := {| mbox_base := mb1; payload_base := pb1;
                           channels := cs1 |};
                regs := r1; iomem := io1; ram := m1; irq_table := t1 |}).
  set (W2 := {| ctlr := {| mbox_base := mb1; payload_base := pb1;
                           channels := cs2 |};
                regs := r1; iomem := io1; ram := m1; irq_table := t1 |}).
  destruct o as [k msg | k | k | k | irq k | ch v bs | ch];
    cbn in Hon; subst; cbn [step]; unfold returning.
  6,7: repeat split; exact Hl.
  all: destruct (cs1 !! link) as [chan |] eqn:H1;
    assert (Hll : cs1 !! link = cs2 !! link) by congruence;
    [ assert (H2 : channels (ctlr W2) !! link = Some chan) by (symmetry; exact Hl);
      change (channels (ctlr W1) !! link = Some chan) in H1
    | assert (H2 : channels (ctlr W2) !! link = None) by (symmetry; exact Hl);
      change (channels (ctlr W1) !! link = None) in H1;
      unfold_driver; drive H1; drive H2; exact I ].
  - destruct msg as [d |].
    + destruct (Z.eq_dec (tx_buf d) 0) as [Hb | Hb].
      * rewrite (send_bare W1 _ _ H1 _ Hb), (send_bare W2 _ _ H2 _ Hb).
        close_agree.
      * rewrite (send_payload W1 _ _ H1 _ Hb), (send_payload W2 _ _ H2 _ Hb).
        close_agree.
    + rewrite (send_null W1 _ _ H1), (send_null W2 _ _ H2).
      repeat split; exact Hll.
  - destruct (irq_claimed (rx_irq chan) t1) eqn:Hc.
    + rewrite (startup_busy W1 _ _ H1 Hc), (startup_busy W2 _ _ H2 Hc).
      repeat split; exact Hll.
    + rewrite (startup_claims W1 _ _ H1 Hc), (startup_claims W2 _ _ H2 Hc).
      repeat split; exact Hll.
  - rewrite (shutdown_runs W1 _ _ H1), (shutdown_runs W2 _ _ H2).
    close_agree.
  - rewrite (last_tx_done_poll W1 _ _ H1), (last_tx_done_poll W2 _ _ H2).
    repeat split; exact Hll.
  - destruct (Z.eq_dec (rx_status_of W1 chan) 0) as [Hs | Hs];
      [rewrite (handler_not_mine W1 _ _ H1 irq (or_introl Hs)),
               (handler_not_mine W2 _ _ H2 irq (or_introl Hs));
       repeat split; exact Hll |].
    destruct (Z.eq_dec irq (rx_irq chan)) as [Hi | Hi];
      [| rewrite (handler_not_mine W1 _ _ H1 irq (or_intror Hi)),
                 (handler_not_mine W2 _ _ H2 irq (or_intror Hi));
         repeat split; exact Hll].
    destruct (data chan) as [d |] eqn:Hdata;
      [| rewrite (handler_spurious W1 _ _ H1 irq Hs Hi Hdata),
                 (handler_spurious W2 _ _ H2 irq Hs Hi Hdata);
         repeat split; exact Hll].
    destruct (Z.eq_dec (rx_buf d) 0) as [Hb | Hb].
    + rewrite (handler_notify_only W1 _ _ H1 irq d Hs Hi Hdata Hb),
              (handler_notify_only W2 _ _ H2 irq d Hs Hi Hdata Hb).
      close_agree.
    + rewrite (handler_deliver W1 _ _ H1 irq d Hs Hi Hdata Hb),
              (handler_deliver W2 _ _ H2 irq d Hs Hi Hdata Hb).
      close_agree.
Qed.

(** Two states that agree on a channel give the same return values and the
    same effects for every sequence of calls on that channel. *)
Lemma run_agree os : forall w1 w2,
  agree link w1 w2 -> Forall (on_link link) os ->
  outputs (run os w1) = outputs (run os w2).
Proof.
  induction os as [| o os IH]; intros w1 w2 Ha Hon; [reflexivity |].
  inversion Hon as [| ? ? Ho Hos]; subst.
  pose proof (step_agree o w1 w2 Ha Ho) as Hstep. cbn [run].
  destruct (step o w1) as [[[ra w1'] la] |], (step o w2) as [[[rb w2'] lb] |];
    try contradiction; [| reflexivity].
  destruct Hstep as (-> & -> & Ha').
  specialize (IH w1' w2' Ha' Hos).
  destruct (run os w1') as [[[rsa wa] lsa] |], (run os w2') as [[[rsb wb] lsb] |];
    cbn in IH |- *; congruence.
Qed.

End Frame.

(** ** The slot *)

Section Slot.

Variables (w w' : world) (link : nat) (chan : mhu_chan).
Hypothesis Hchan : channels (ctlr w) !! link = Some chan.

Lemma pending_kept k :
  channels (ctlr w') = channels (ctlr w) -> pending w' k = pending w k.
Proof. intros H. unfold pending. now rewrite H. Qed.

Lemma pending_written d k :
  channels (ctlr w') = <[link := set_data d chan]> (channels (ctlr w)) ->
  pending w' k = if Nat.eqb k link then d else pending w k.
Proof.
  intros H. unfold pending. rewrite H.
  destruct (Nat.eqb_spec k link) as [-> | Hk].
  - rewrite list_lookup_insert_eq by (eapply lookup_lt_Some, Hchan).
    reflexivity.
  - now rewrite list_lookup_insert_ne by congruence.
Qed.

End Slot.

(** ** Sending and receiving *)

Lemma send_payload_post w link chan d :
  channels (ctlr w) !! link = Some chan -> tx_buf d <> 0 ->
  sends w link chan d.
Proof.
  intros Hchan Hbuf. unfold sends.
  eexists. split; [apply (send_payload w link chan Hchan d Hbuf) |].
  cbn [iomem ram set_regs set_iomem stored set_channels].
  repeat split.
  - apply copy_bytes_fidelity.
  - intros a Ha. now apply copy_bytes_outside.
Qed.

(** What holds in the state a delivery of [d] ends in. *)
Lemma delivered_state w link chan d :
  channels (ctlr w) !! link = Some chan ->
  let mbox := mbox_base (ctlr w) in
  let idx := index chan in
  let src := payload_base (ctlr w) + RX_PAYLOAD idx in
  let w' :=
    set_regs (hw_writel mbox (regs w) 0xFFFFFFFF (mbox + RX_CLEAR idx idx))
      (stored link None chan
         (set_ram (copy_bytes (ram w) (iomem w) (rx_buf d) src (rx_size d)) w))
  in
  read_bytes (ram w') (rx_buf d) (rx_size d) =
  read_bytes (iomem w) src (rx_size d) /\
  (forall a, in_range (rx_buf d) (rx_size d) a = false -> ram w' a = ram w a) /\
  iomem w' = iomem w /\
  pending w' link = None /\
  rx_status_of w' chan = 0.
Proof.
  intros Hchan mbox idx src w'. subst w'.
  split; [| split; [| split; [| split]]].
  - cbn [iomem ram set_regs set_ram stored set_channels].
    apply copy_bytes_fidelity.
  - intros a Ha. cbn [iomem ram set_regs set_ram stored set_channels].
    now apply copy_bytes_outside.
  - reflexivity.
  - erewrite (pending_written w _ link chan Hchan None link) by reflexivity.
    now rewrite Nat.eqb_refl.
  - unfold rx_status_of.
    cbn [regs ctlr mbox_base set_regs set_ram stored set_channels].
    subst mbox idx. rewrite ack_rx. apply to_u32_cleared.
Qed.

(** * The specified behaviour *)

(** The scenario of the specification: two channels, channel 0 started, a
    descriptor with a four-byte destination submitted, the peer depositing
    [DE AD BE EF] and ringing, the line firing.  The client gets the four
    bytes, the receive status is cleared and nothing is pending. *)
Example scenario_receive :
  let os := [OpStartup 0; OpSend 0 (Some Sample.small);
             OpPeerRing 0 1 [Byte.xde; Byte.xad; Byte.xbe; Byte.xef];
             OpIrq 36 0] in
  let w' := after (run os Sample.w0) Sample.w0 in
  outputs (run os Sample.w0) =
    Some ([RInt 0; RInt 0; RUnit; RIrq IRQ_HANDLED],
          [EvRequestIrq 36 0;
           EvStoreData 0 (Some Sample.small);
           EvMemcpyToIo (0x2e000000 + 0x200) 0x1000 4;
           EvWritel 1 (0x2b1f0000 + 0x108);
           EvMemcpyFromIo 0x2000 0x2e000000 4;
           EvStoreData 0 None;
           EvReceivedData 0 Sample.small;
           EvWritel 0xFFFFFFFF (0x2b1f0000 + 0x10)]) /\
  read_bytes (ram w') 0x2000 4 = [Byte.xde; Byte.xad; Byte.xbe; Byte.xef] /\
  rx_status_of w' Sample.idle_chan = 0 /\
  pending w' 0 = None /\
  irq_table w' = [(36, 0%nat)].
Proof. vm_compute. repeat split; reflexivity. Qed.

(** ** Register map *)

(** C7. For every valid channel index the receive payload slot starts at
    [ch * 0x400] and the transmit slot at [ch * 0x400 + 0x200]; the receive
    slot, [PAYLOAD_MAX_SIZE = 0x200] bytes long, ends no later than the
    transmit slot begins; and the slots of two distinct channels, in
    whichever directions, share no byte. *)
Theorem payload_slots_layout ch :
  valid_channel ch ->
  PAYLOAD_MAX_SIZE = 0x200 /\
  payload_offset Receive ch = ch * 0x400 /\
  payload_offset Transmit ch = ch * 0x400 + 0x200 /\
  payload_offset Receive ch + PAYLOAD_MAX_SIZE <= payload_offset Transmit ch /\
  forall ch' dir dir',
    valid_channel ch' -> ch <> ch' ->
    slots_disjoint (payload_offset dir ch) (payload_offset dir' ch').
Proof.
  unfold valid_channel, CHANNEL_MAX. intros Hch.
  repeat split; try (cbn; unfold RX_PAYLOAD, TX_PAYLOAD, PAYLOAD_OFFSET,
                       PAYLOAD_MAX_SIZE; lia).
  intros ch' dir dir' Hch' Hne.
  unfold slots_disjoint, payload_offset, RX_PAYLOAD, TX_PAYLOAD,
    PAYLOAD_OFFSET, PAYLOAD_MAX_SIZE.
  destruct dir, dir'; lia.
Qed.

Lemma payload_slots_layout_witness :
  valid_channel 1 /\
  payload_offset Receive 1 = 0x400 /\
  payload_offset Transmit 1 = 0x600 /\
  slots_disjoint (payload_offset Transmit 0) (payload_offset Receive 1).
Proof.
  assert (H1 : valid_channel 1) by (unfold valid_channel, CHANNEL_MAX; lia).
  assert (H0 : valid_channel 0) by (unfold valid_channel, CHANNEL_MAX; lia).
  destruct (payload_slots_layout 1 H1) as (_ & Hrx & Htx & _ & _).
  destruct (payload_slots_layout 0 H0) as (_ & _ & _ & _ & Hdis).
  split; [exact H1 |]. split; [exact Hrx |]. split; [exact Htx |].
  apply Hdis; [exact H1 | lia].
Defined.

(** C8. For every valid channel index the receive status register is at
    [0x20 * ch] and the transmit status register at [0x100 + 0x20 * ch]; in
    each direction the set register is at status + 0x08 and the clear
    register at status + 0x10; every receive register of a channel lies
    wholly below 0x100 and every transmit register of a channel at or above
    it, so the two blocks do not overlap. *)
Theorem register_block_layout ch :
  valid_channel ch ->
  reg_offset Receive Status ch = 0x20 * ch /\
  reg_offset Transmit Status ch = 0x100 + 0x20 * ch /\
  (forall dir,
     reg_offset dir Set_ ch = reg_offset dir Status ch + 0x08 /\
     reg_offset dir Clear ch = reg_offset dir Status ch + 0x10) /\
  forall ch' k k',
    valid_channel ch' ->
    0 <= reg_offset Receive k ch /\
    reg_offset Receive k ch + REG_WIDTH <= 0x100 /\
    0x100 <= reg_offset Transmit k' ch'.
Proof.
  unfold valid_channel, CHANNEL_MAX. intros Hch.
  repeat split;
    try (destruct dir);
    try (destruct k); try (destruct k');
    cbn; unfold RX_STATUS, RX_SET, RX_CLEAR, RX_OFFSET, TX_STATUS, TX_SET,
      TX_CLEAR, TX_OFFSET, REG_WIDTH; lia.
Qed.

Lemma register_block_layout_witness :
  valid_channel 1 /\
  reg_offset Receive Clear 1 = 0x30 /\
  reg_offset Transmit Set_ 1 = 0x128.
Proof.
  assert (H1 : valid_channel 1) by (unfold valid_channel, CHANNEL_MAX; lia).
  destruct (register_block_layout 1 H1) as (Hrx & Htx & Hk & _).
  split; [exact H1 |]. split.
  - destruct (Hk Receive) as [_ ->]. rewrite Hrx. reflexivity.
  - destruct (Hk Transmit) as [-> _]. rewrite Htx. reflexivity.
Defined.

(** ** Send *)

(** C5. For a descriptor with a payload buffer whose size is at most
    [PAYLOAD_MAX_SIZE], Send returns 0 without waiting for anything; it
    copies exactly [tx_size] bytes of the client buffer into the transmit
    slot of the channel and only then writes the command word to the
    transmit set register; reading the slot back gives the client's bytes,
    and no byte outside the channel's transmit slot has changed.  A null
    descriptor is rejected with [-EINVAL]. *)
Theorem send_copies_then_rings w link chan d :
  channels (ctlr w) !! link = Some chan ->
  tx_buf d <> 0 ->
  Z.of_N (tx_size d) <= PAYLOAD_MAX_SIZE ->
  sends w link chan d /\
  (forall w' l,
     mhu_send_data link (Some d) w = Some (0, w', l) ->
     forall a,
       iomem w' a <> iomem w a ->
       let slot := payload_base (ctlr w) + payload_offset Transmit (index chan) in
       slot <= a < slot + PAYLOAD_MAX_SIZE) /\
  mhu_send_data link None w = Some (- EINVAL, w, []).
Proof.
  intros Hchan Hbuf Hsize.
  pose proof (send_payload_post w link chan d Hchan Hbuf) as Hs.
  split; [exact Hs |]. split; [| apply (send_null w link chan Hchan)].
  destruct Hs as (w1 & Hrun & _ & Hout & _).
  intros w' l Hrun' a Hdiff slot. rewrite Hrun in Hrun'.
  injection Hrun' as <- _.
  destruct (in_range slot (tx_size d) a) eqn:Hin.
  - unfold in_range in Hin. apply andb_true_iff in Hin as [Hlo Hhi].
    apply Z.leb_le in Hlo. apply Z.ltb_lt in Hhi. lia.
  - elim Hdiff. now apply Hout.
Qed.

Lemma send_copies_then_rings_witness :
  channels (ctlr Sample.w0) !! 0%nat = Some Sample.idle_chan /\
  tx_buf Sample.small <> 0 /\
  Z.of_N (tx_size Sample.small) <= PAYLOAD_MAX_SIZE /\
  sends Sample.w0 0 Sample.idle_chan Sample.small.
Proof.
  assert (H1 : channels (ctlr Sample.w0) !! 0%nat = Some Sample.idle_chan)
    by reflexivity.
  assert (H2 : tx_buf Sample.small <> 0) by (vm_compute; discriminate).
  assert (H3 : Z.of_N (tx_size Sample.small) <= PAYLOAD_MAX_SIZE)
    by (vm_compute; discriminate).
  split; [exact H1 |]. split; [exact H2 |]. split; [exact H3 |].
  exact (proj1 (send_copies_then_rings Sample.w0 0 Sample.idle_chan
                  Sample.small H1 H2 H3)).
Defined.

(** C1, as the driver has it.  Send compares no size with
    [PAYLOAD_MAX_SIZE]: it returns [-EINVAL] exactly when the descriptor is
    null, and then copies nothing, writes no register and leaves the state
    as it was; every other descriptor, whatever its payload size, is
    accepted with 0. *)
Theorem send_rejects_null_only w link chan msg :
  channels (ctlr w) !! link = Some chan ->
  exists r w' l,
    mhu_send_data link msg w = Some (r, w', l) /\
    (r = - EINVAL <-> msg = None) /\
    (r = - EINVAL -> w' = w /\ l = []) /\
    (r <> - EINVAL -> r = 0 /\ pending w' link = msg).
Proof.
  intros Hchan. destruct msg as [d |].
  - destruct (Z.eq_dec (tx_buf d) 0) as [Hb | Hb];
      [rewrite (send_bare w link chan Hchan d Hb)
      | rewrite (send_payload w link chan Hchan d Hb)];
      do 3 eexists; (split; [reflexivity |]);
      (split; [split; discriminate |]);
      (split; [discriminate |]); intros _; (split; [reflexivity |]);
      erewrite (pending_written w _ link chan Hchan (Some d) link) by reflexivity;
      now rewrite Nat.eqb_refl.
  - rewrite (send_null w link chan Hchan). do 3 eexists.
    split; [reflexivity |]. split; [now split |]. split; [now split |].
    intros Hne. now elim Hne.
Qed.

Lemma send_rejects_null_only_witness :
  channels (ctlr Sample.w0) !! 1%nat =
    Some {| index := 1; rx_irq := 37; data := None |} /\
  outputs (mhu_send_data 1 None Sample.w0) = Some (- EINVAL, []).
Proof.
  assert (H1 : channels (ctlr Sample.w0) !! 1%nat =
               Some {| index := 1; rx_irq := 37; data := None |})
    by reflexivity.
  split; [exact H1 |].
  destruct (send_rejects_null_only Sample.w0 1 _ None H1)
    as (r & w' & l & Hrun & Hr & Hsame & _).
  rewrite Hrun. cbn [outputs].
  rewrite (proj2 Hr eq_refl) in *.
  now destruct (Hsame eq_refl) as [_ ->].
Defined.

(** C1, as stated, fails: a descriptor of 0x201 bytes is accepted with 0,
    the 0x201 bytes are copied and the doorbell is rung; the last byte lands
    in the receive slot of channel 1. *)
Lemma send_oversized_accepted :
  PAYLOAD_MAX_SIZE < Z.of_N (tx_size Sample.oversized) /\
  outputs (mhu_send_data 0 (Some Sample.oversized) Sample.w0) =
    Some (0, [EvStoreData 0 (Some Sample.oversized);
              EvMemcpyToIo (0x2e000000 + 0x200) 0x1000 0x201;
              EvWritel 1 (0x2b1f0000 + 0x108)]) /\
  let w' := after (mhu_send_data 0 (Some Sample.oversized) Sample.w0) Sample.w0 in
  iomem Sample.w0 (0x2e000000 + payload_offset Receive 1) = Byte.xff /\
  iomem w' (0x2e000000 + payload_offset Receive 1) = Byte.x00 /\
  regs Sample.w0 (0x2b1f0000 + 0x100) = 0 /\
  regs w' (0x2b1f0000 + 0x100) = 1.
Proof. vm_compute. repeat split; reflexivity. Qed.

(** ** Transmit completion *)

Lemma send_accepts w link chan d :
  channels (ctlr w) !! link = Some chan ->
  exists w1 l1, mhu_send_data link (Some d) w = Some (0, w1, l1).
Proof.
  intros Hchan. destruct (Z.eq_dec (tx_buf d) 0) as [Hb | Hb];
    [rewrite (send_bare w link chan Hchan d Hb)
    | rewrite (send_payload w link chan Hchan d Hb)]; eauto.
Qed.

Lemma send_raises_tx_status w link chan d r w1 l :
  channels (ctlr w) !! link = Some chan ->
  mhu_send_data link (Some d) w = Some (r, w1, l) ->
  channels (ctlr w1) !! link = Some (set_data (Some d) chan) /\
  mbox_base (ctlr w1) = mbox_base (ctlr w) /\
  regs w1 (mbox_base (ctlr w) + TX_STATUS (index chan) (index chan)) =
  Z.lor (regs w (mbox_base (ctlr w) + TX_STATUS (index chan) (index chan)))
        (to_u32 (cmd d)).
Proof.
  intros Hchan Hrun.
  destruct (Z.eq_dec (tx_buf d) 0) as [Hb | Hb];
    [rewrite (send_bare w link chan Hchan d Hb) in Hrun
    | rewrite (send_payload w link chan Hchan d Hb) in Hrun];
    injection Hrun as _ <- _;
    cbn [ctlr regs mbox_base channels set_regs set_iomem stored set_channels];
    (split; [apply list_lookup_insert_eq; eapply lookup_lt_Some, Hchan |]);
    (split; [reflexivity |]); apply ring_tx.
Qed.

(** C6, as the driver and the doorbell have it.  LastTransmitDone returns
    true exactly when the transmit status register of the channel reads
    zero; it changes nothing and has no effect.  Right after a Send whose
    command word has a bit set it returns false, and once the peer has
    cleared the transmit status it returns true. *)
Theorem last_tx_done_polls w link chan :
  channels (ctlr w) !! link = Some chan ->
  mhu_last_tx_done link w = Some (tx_status_of w chan =? 0, w, []) /\
  forall d r w1 l,
    mhu_send_data link (Some d) w = Some (r, w1, l) ->
    (to_u32 (cmd d) <> 0 ->
     outputs (mhu_last_tx_done link w1) = Some (false, [])) /\
    outputs (mhu_last_tx_done link (Peer.ack (index chan) w1)) = Some (true, []).
Proof.
  intros Hchan. split; [apply (last_tx_done_poll w link chan Hchan) |].
  intros d r w1 l Hrun.
  destruct (send_raises_tx_status w link chan d r w1 l Hchan Hrun)
    as (Hchan1 & Hbase & Hregs).
  split.
  - intros Hcmd. rewrite (last_tx_done_poll w1 link _ Hchan1). cbn [outputs].
    do 2 f_equal. apply Z.eqb_neq. unfold tx_status_of.
    cbn [index set_data]. rewrite Hbase, Hregs. now apply to_u32_raised.
  - assert (Hchan2 : channels (ctlr (Peer.ack (index chan) w1)) !! link =
                     Some (set_data (Some d) chan)) by exact Hchan1.
    rewrite (last_tx_done_poll _ link _ Hchan2). cbn [outputs].
    do 2 f_equal. apply Z.eqb_eq. unfold tx_status_of, Peer.ack.
    cbn [index set_data regs ctlr set_regs]. rewrite Z.eqb_refl.
    apply to_u32_cleared.
Qed.

Lemma last_tx_done_polls_witness :
  channels (ctlr Sample.w0) !! 0%nat = Some Sample.idle_chan /\
  outputs (mhu_last_tx_done 0 Sample.w0) = Some (true, []) /\
  outputs (mhu_last_tx_done 0 Sample.sent) = Some (false, []) /\
  outputs (mhu_last_tx_done 0 (Peer.ack 0 Sample.sent)) = Some (true, []).
Proof.
  assert (H1 : channels (ctlr Sample.w0) !! 0%nat = Some Sample.idle_chan)
    by reflexivity.
  destruct (last_tx_done_polls Sample.w0 0 Sample.idle_chan H1) as [Hpoll Hsend].
  split; [exact H1 |]. split; [now rewrite Hpoll |].
  assert (Hrun : mhu_send_data 0 (Some Sample.small) Sample.w0 =
                 Some (0, Sample.sent, [EvStoreData 0 (Some Sample.small);
                                        EvMemcpyToIo (0x2e000000 + 0x200) 0x1000 4;
                                        EvWritel 1 (0x2b1f0000 + 0x108)]))
    by reflexivity.
  destruct (Hsend _ _ _ _ Hrun) as [Hbusy Hdone].
  split; [apply Hbusy; vm_compute; discriminate | exact Hdone].
Defined.

(** C6, as stated, fails: a Send whose command word is zero raises no bit
    in the transmit status, and LastTransmitDone returns true right after
    it. *)
Lemma silent_send_reads_done :
  outputs (mhu_send_data 0 (Some Sample.silent) Sample.w0) =
    Some (0, [EvStoreData 0 (Some Sample.silent);
              EvWritel 0 (0x2b1f0000 + 0x108)]) /\
  outputs (mhu_last_tx_done 0
             (after (mhu_send_data 0 (Some Sample.silent) Sample.w0) Sample.w0))
  = Some (true, []).
Proof. vm_compute. split; reflexivity. Qed.

(** ** Interrupts *)

(** C3. With a descriptor pending that names a destination buffer, an
    interrupt on the channel's own line with the receive status non-zero
    copies [rx_size] bytes from the receive slot into the destination and
    nothing beyond them, empties the [data] slot, hands the descriptor to
    the client, and writes all ones to the receive clear register, in this
    order; afterwards the receive status reads zero. *)
Theorem interrupt_delivers w link chan d irq :
  channels (ctlr w) !! link = Some chan ->
  data chan = Some d ->
  rx_buf d <> 0 ->
  irq = rx_irq chan ->
  rx_status_of w chan <> 0 ->
  delivers w link chan d irq.
Proof.
  intros Hchan Hdata Hbuf Hirq Hst. unfold delivers.
  eexists. split.
  - (* the run: copy, store, call-out, acknowledge *)
    apply (handler_deliver w link chan Hchan irq d Hst Hirq Hdata Hbuf).
  - (* the state it ends in *)
    apply (delivered_state w link chan d Hchan).
Qed.

Lemma interrupt_delivers_witness :
  channels (ctlr Sample.answered) !! 0%nat = Some Sample.armed_chan /\
  data Sample.armed_chan = Some Sample.small /\
  rx_buf Sample.small <> 0 /\
  36 = rx_irq Sample.armed_chan /\
  rx_status_of Sample.answered Sample.armed_chan <> 0 /\
  delivers Sample.answered 0 Sample.armed_chan Sample.small 36 /\
  read_bytes (ram (after (mbox_handler 36 0 Sample.answered) Sample.answered))
             0x2000 4 = [Byte.xde; Byte.xad; Byte.xbe; Byte.xef].
Proof.
  assert (H1 : channels (ctlr Sample.answered) !! 0%nat = Some Sample.armed_chan)
    by reflexivity.
  assert (H2 : data Sample.armed_chan = Some Sample.small) by reflexivity.
  assert (H3 : rx_buf Sample.small <> 0) by (vm_compute; discriminate).
  assert (H4 : 36 = rx_irq Sample.armed_chan) by reflexivity.
  assert (H5 : rx_status_of Sample.answered Sample.armed_chan <> 0)
    by (vm_compute; discriminate).
  repeat (split; [assumption |]).
  split; [exact (interrupt_delivers _ _ _ _ _ H1 H2 H3 H4 H5) |].
  vm_compute. reflexivity.
Defined.

(** C4. With nothing pending, the handler copies nothing, writes no
    register and leaves the state as it was, whatever the line and the
    status; it reports [IRQ_NONE] exactly for the spurious event, which is
    the channel's own line firing with the receive status non-zero. *)
Theorem spurious_interrupt_unhandled w link chan irq :
  channels (ctlr w) !! link = Some chan ->
  data chan = None ->
  exists r,
    mbox_handler irq link w = Some (r, w, []) /\
    (r = IRQ_NONE <-> rx_status_of w chan <> 0 /\ irq = rx_irq chan).
Proof.
  intros Hchan Hdata.
  destruct (Z.eq_dec (rx_status_of w chan) 0) as [Hs | Hs].
  - exists IRQ_HANDLED.
    split; [apply (handler_not_mine w link chan Hchan irq); now left |].
    split; [discriminate | intros [Hne _]; contradiction].
  - destruct (Z.eq_dec irq (rx_irq chan)) as [Hi | Hi].
    + exists IRQ_NONE.
      split; [apply (handler_spurious w link chan Hchan irq Hs Hi Hdata) |].
      now split.
    + exists IRQ_HANDLED.
      split; [apply (handler_not_mine w link chan Hchan irq); now right |].
      split; [discriminate | intros [_ He]; contradiction].
Qed.

Lemma spurious_interrupt_unhandled_witness :
  channels (ctlr Sample.knocked) !! 0%nat = Some Sample.idle_chan /\
  data Sample.idle_chan = None /\
  rx_status_of Sample.knocked Sample.idle_chan <> 0 /\
  mbox_handler 36 0 Sample.knocked = Some (IRQ_NONE, Sample.knocked, []).
Proof.
  assert (H1 : channels (ctlr Sample.knocked) !! 0%nat = Some Sample.idle_chan)
    by reflexivity.
  assert (H2 : data Sample.idle_chan = None) by reflexivity.
  assert (H3 : rx_status_of Sample.knocked Sample.idle_chan <> 0)
    by (vm_compute; discriminate).
  repeat (split; [assumption |]).
  destruct (spurious_interrupt_unhandled Sample.knocked 0 Sample.idle_chan 36 H1 H2)
    as (r & Hrun & Hr).
  rewrite Hrun. now rewrite (proj2 Hr (conj H3 eq_refl)).
Defined.

(** C10. A Send with a descriptor returns 0 and leaves that descriptor in
    the [data] slot, whatever the slot held before.  If the receive doorbell
    of the channel is then raised and the channel's line fires, the handler
    takes the sent descriptor as the destination: it copies the receive slot
    into the descriptor's [rx_buf], empties the slot and hands the
    descriptor to the client. *)
Theorem send_arms_receive w link chan d :
  channels (ctlr w) !! link = Some chan ->
  exists w1 l1,
    mhu_send_data link (Some d) w = Some (0, w1, l1) /\
    pending w1 link = Some d /\
    forall w2,
      ctlr w2 = ctlr w1 ->
      rx_buf d <> 0 ->
      rx_status_of w2 chan <> 0 ->
      delivers w2 link (set_data (Some d) chan) d (rx_irq chan).
Proof.
  intros Hchan.
  destruct (send_accepts w link chan d Hchan) as (w1 & l1 & Hrun).
  exists w1, l1. split; [exact Hrun |].
  destruct (send_raises_tx_status w link chan d 0 w1 l1 Hchan Hrun)
    as (Hchan1 & _ & _).
  split; [unfold pending; now rewrite Hchan1 |].
  intros w2 Hctlr Hbuf Hst.
  assert (Hchan2 : channels (ctlr w2) !! link = Some (set_data (Some d) chan))
    by now rewrite Hctlr.
  unfold delivers. eexists. split.
  - apply (handler_deliver w2 link _ Hchan2 (rx_irq chan) d Hst eq_refl eq_refl Hbuf).
  - apply (delivered_state w2 link _ d Hchan2).
Qed.

Lemma send_arms_receive_witness :
  channels (ctlr Sample.w0) !! 0%nat = Some Sample.idle_chan /\
  pending Sample.sent 0 = Some Sample.small /\
  delivers Sample.answered 0 Sample.armed_chan Sample.small 36.
Proof.
  assert (H1 : channels (ctlr Sample.w0) !! 0%nat = Some Sample.idle_chan)
    by reflexivity.
  split; [exact H1 |].
  destruct (send_arms_receive Sample.w0 0 Sample.idle_chan Sample.small H1)
    as (w1 & l1 & Hrun & Hpend & Hirq).
  assert (Hsent : w1 = Sample.sent)
    by (unfold Sample.sent; now rewrite Hrun).
  subst w1. split; [exact Hpend |].
  apply (Hirq Sample.answered);
    [reflexivity | vm_compute; discriminate | vm_compute; discriminate].
Defined.

(** ** Who writes the slot *)

Lemma step_slot o w r w' l :
  step o w = Some (r, w', l) ->
  channels (ctlr w') = channels (ctlr w) \/
  exists link chan x,
    channels (ctlr w) !! link = Some chan /\
    channels (ctlr w') = <[link := set_data x chan]> (channels (ctlr w)) /\
    slot_write w l link chan o x.
Proof.
  intros Hstep.
  destruct o as [link msg | link | link | link | irq link | ch v bs | ch];
    cbn in Hstep; unfold returning in Hstep;
    try (injection Hstep as _ <- _; now left).
  all: destruct (channels (ctlr w) !! link) as [chan |] eqn:Hchan;
    [| unfold_driver_in Hstep; drive_in Hchan Hstep; discriminate].
  - destruct msg as [d |].
    + right. exists link, chan, (Some d).
      destruct (Z.eq_dec (tx_buf d) 0) as [Hb | Hb];
        [rewrite (send_bare _ _ _ Hchan _ Hb) in Hstep
        | rewrite (send_payload _ _ _ Hchan _ Hb) in Hstep];
        injection Hstep as _ <- _;
        (split; [exact Hchan | split; [reflexivity | constructor]]).
    + rewrite (send_null _ _ _ Hchan) in Hstep.
      injection Hstep as _ <- _. now left.
  - destruct (irq_claimed (rx_irq chan) (irq_table w)) eqn:Hc;
      [rewrite (startup_busy _ _ _ Hchan Hc) in Hstep
      | rewrite (startup_claims _ _ _ Hchan Hc) in Hstep];
      injection Hstep as _ <- _; now left.
  - rewrite (shutdown_runs _ _ _ Hchan) in Hstep.
    injection Hstep as _ <- _. right. exists link, chan, None.
    split; [exact Hchan | split; [reflexivity | constructor]].
  - rewrite (last_tx_done_poll _ _ _ Hchan) in Hstep.
    injection Hstep as _ <- _. now left.
  - destruct (Z.eq_dec (rx_status_of w chan) 0) as [Hs | Hs];
      [rewrite (handler_not_mine _ _ _ Hchan irq (or_introl Hs)) in Hstep;
       injection Hstep as _ <- _; now left |].
    destruct (Z.eq_dec irq (rx_irq chan)) as [Hi | Hi];
      [| rewrite (handler_not_mine _ _ _ Hchan irq (or_intror Hi)) in Hstep;
         injection Hstep as _ <- _; now left].
    destruct (data chan) as [d |] eqn:Hdata;
      [| rewrite (handler_spurious _ _ _ Hchan irq Hs Hi Hdata) in Hstep;
         injection Hstep as _ <- _; now left].
    right. exists link, chan, None.
    destruct (Z.eq_dec (rx_buf d) 0) as [Hb | Hb].
    + rewrite (handler_notify_only _ _ _ Hchan irq d Hs Hi Hdata Hb) in Hstep.
      injection Hstep as _ <- <-.
      split; [exact Hchan | split; [reflexivity |]].
      apply (write_deliver _ _ _ _ irq d Hdata).
      unfold delivery_log. now rewrite Hb.
    + rewrite (handler_deliver _ _ _ Hchan irq d Hs Hi Hdata Hb) in Hstep.
      injection Hstep as _ <- <-.
      split; [exact Hchan | split; [reflexivity |]].
      apply (write_deliver _ _ _ _ irq d Hdata).
      unfold delivery_log. apply Z.eqb_neq in Hb. now rewrite Hb.
Qed.

(** C2, as the driver has it.  The [data] slot of a channel goes from empty
    to occupied only by a Send on that channel, which stores the descriptor
    it is given (and replaces an occupant the same way); it goes from
    occupied to empty only in the interrupt handler, after the copy out, or
    in Stop, which copies nothing.  Start, LastTransmitDone and the peer
    never change it. *)
Theorem pending_receive_writers o w r w' l k :
  step o w = Some (r, w', l) ->
  match pending w k, pending w' k with
  | None, None => True
  | None, Some d => o = OpSend k (Some d)
  | Some d, Some d' => d = d' \/ o = OpSend k (Some d')
  | Some d, None =>
      o = OpShutdown k \/
      exists irq chan,
        o = OpIrq irq k /\ channels (ctlr w) !! k = Some chan /\
        l = delivery_log w k chan d
  end.
Proof.
  intros Hstep.
  destruct (step_slot o w r w' l Hstep)
    as [Hsame | (link & chan & x & Hchan & Hnew & Hwrite)].
  - rewrite (pending_kept w w' k Hsame).
    destruct (pending w k); [now left | exact I].
  - rewrite (pending_written w w' link chan Hchan x k Hnew).
    destruct (Nat.eqb_spec k link) as [-> | Hk];
      [| destruct (pending w k); [now left | exact I]].
    unfold pending. rewrite Hchan.
    destruct Hwrite as [d | | irq d Hdata Hlog].
    + destruct (data chan); [now right | reflexivity].
    + destruct (data chan); [now left | exact I].
    + rewrite Hdata. right. exists irq, chan. now repeat split.
Qed.

Lemma pending_receive_writers_witness :
  step (OpIrq 36 0) Sample.answered =
    Some (RIrq IRQ_HANDLED,
          after (mbox_handler 36 0 Sample.answered) Sample.answered,
          delivery_log Sample.answered 0 Sample.armed_chan Sample.small) /\
  pending Sample.answered 0 = Some Sample.small /\
  pending (after (mbox_handler 36 0 Sample.answered) Sample.answered) 0 = None /\
  (OpIrq 36 0 = OpShutdown 0 \/
   exists irq chan,
     OpIrq 36 0 = OpIrq irq 0 /\
     channels (ctlr Sample.answered) !! 0%nat = Some chan /\
     delivery_log Sample.answered 0 Sample.armed_chan Sample.small =
     delivery_log Sample.answered 0 chan Sample.small).
Proof.
  assert (H1 : step (OpIrq 36 0) Sample.answered =
    Some (RIrq IRQ_HANDLED,
          after (mbox_handler 36 0 Sample.answered) Sample.answered,
          delivery_log Sample.answered 0 Sample.armed_chan Sample.small))
    by reflexivity.
  split; [exact H1 |]. split; [reflexivity |]. split; [reflexivity |].
  exact (pending_receive_writers _ _ _ _ _ 0%nat H1).
Defined.

(** C2, as stated, fails: Send fills the empty slot of channel 0 with the
    descriptor it is given, and Stop empties it again with no copy. *)
Lemma send_writes_pending :
  pending Sample.w0 0 = None /\
  outputs (mhu_send_data 0 (Some Sample.small) Sample.w0) =
    Some (0, [EvStoreData 0 (Some Sample.small);
              EvMemcpyToIo (0x2e000000 + 0x200) 0x1000 4;
              EvWritel 1 (0x2b1f0000 + 0x108)]) /\
  pending Sample.sent 0 = Some Sample.small /\
  outputs (mhu_shutdown 0 Sample.sent) =
    Some (tt, [EvStoreData 0 None; EvFreeIrq 36 0]) /\
  pending (after (mhu_shutdown 0 Sample.sent) Sample.sent) 0 = None.
Proof. vm_compute. repeat split; reflexivity. Qed.

(** ** Stop, then Start *)

Section Irq_table.

Variables (irq : Z) (link : nat).

Lemma free_irq_removes t e :
  In e (List.filter (fun e => negb (irq_action_is irq link e)) t) ->
  e <> (irq, link).
Proof.
  intros Hin ->. apply filter_In in Hin as [_ Hkeep].
  unfold irq_action_is in Hkeep. cbn in Hkeep.
  now rewrite Z.eqb_refl, Nat.eqb_refl in Hkeep.
Qed.

(** A line held by this link alone is free again once released. *)
Lemma free_irq_releases t :
  (forall e, In e t -> fst e = irq -> snd e = link) ->
  irq_claimed irq
    (List.filter (fun e => negb (irq_action_is irq link e)) t) = false.
Proof.
  unfold irq_claimed. induction t as [| e t IH]; intros Hown; [reflexivity |].
  cbn [List.filter]. unfold irq_action_is at 1.
  destruct (Z.eqb_spec (fst e) irq) as [He | He].
  - rewrite (Hown e (or_introl eq_refl) He), Nat.eqb_refl. cbn.
    apply IH. intros e' Hin. apply Hown. now right.
  - cbn. apply Z.eqb_neq in He. rewrite He. cbn.
    apply IH. intros e' Hin. apply Hown. now right.
Qed.

End Irq_table.

(** C9. On a controller built by [mhu_probe], Stop on a channel always
    completes: it empties the [data] slot and releases the channel's
    interrupt action, copies nothing and touches neither registers nor
    memory.  A Start that follows leaves the channel record exactly as
    [mhu_probe] built it, with nothing pending, and claims the line again if
    no one else holds it; from there every sequence of calls on the channel
    returns the same values and has the same effects as on a freshly built
    controller in the same surroundings. *)
Theorem stop_then_start_fresh pdev c w link chan0 :
  mhu_probe pdev = inr c ->
  descends c w ->
  channels c !! link = Some chan0 ->
  exists w1,
    mhu_shutdown link w =
      Some (tt, w1, [EvStoreData link None; EvFreeIrq (rx_irq chan0) link]) /\
    pending w1 link = None /\
    (forall e, In e (irq_table w1) -> e <> (rx_irq chan0, link)) /\
    regs w1 = regs w /\ iomem w1 = iomem w /\ ram w1 = ram w /\
    exists err w2 l2,
      mhu_startup link w1 = Some (err, w2, l2) /\
      ((forall e, In e (irq_table w) -> fst e = rx_irq chan0 -> snd e = link) ->
       err = 0 /\ In (rx_irq chan0, link) (irq_table w2)) /\
      channels (ctlr w2) !! link = Some chan0 /\
      pending w2 link = None /\
      forall wf,
        ctlr wf = c -> regs wf = regs w2 -> iomem wf = iomem w2 ->
        ram wf = ram w2 -> irq_table wf = irq_table w2 ->
        forall os,
          Forall (on_link link) os ->
          outputs (run os w2) = outputs (run os wf).
Proof.
  intros Hprobe (Hmb & Hpb & Hcs) Hchan0.
  destruct (Forall2_lookup_r _ _ _ _ _ Hcs Hchan0) as (chan & Hchan & Hidx & Hirq).
  destruct (mhu_probe_fresh pdev c link chan0 Hprobe Hchan0) as [Hnone _].
  assert (Hfresh : set_data None chan = chan0).
  { destruct chan0 as [i0 q0 d0]. cbn in Hidx, Hirq, Hnone. subst.
    reflexivity. }
  pose proof (shutdown_runs w link chan Hchan) as Hstop.
  rewrite Hirq in Hstop.
  set (w1 := set_irq_table _ (stored link None chan w)) in Hstop.
  assert (Hchan1 : channels (ctlr w1) !! link = Some chan0).
  { rewrite <- Hfresh. apply (stored_lookup w link chan Hchan). }
  exists w1. split; [exact Hstop |].
  split; [unfold pending; now rewrite Hchan1, Hnone |].
  split; [intros e; apply free_irq_removes |].
  do 3 (split; [reflexivity |]).
  assert (Hafter : forall err w2 l2,
    mhu_startup link w1 = Some (err, w2, l2) ->
    ctlr w2 = ctlr w1).
  { intros err w2 l2 Hrun.
    destruct (irq_claimed (rx_irq chan0) (irq_table w1)) eqn:Hc;
      [rewrite (startup_busy w1 link chan0 Hchan1 Hc) in Hrun
      | rewrite (startup_claims w1 link chan0 Hchan1 Hc) in Hrun];
      now injection Hrun as _ <- _. }
  assert (Hruns : exists err w2 l2, mhu_startup link w1 = Some (err, w2, l2)).
  { destruct (irq_claimed (rx_irq chan0) (irq_table w1)) eqn:Hc;
      [rewrite (startup_busy w1 link chan0 Hchan1 Hc)
      | rewrite (startup_claims w1 link chan0 Hchan1 Hc)]; eauto. }
  destruct Hruns as (err & w2 & l2 & Hstart).
  pose proof (Hafter _ _ _ Hstart) as Hctlr.
  exists err, w2, l2. split; [exact Hstart |]. split.
  { intros Hown.
    rewrite (startup_claims w1 link chan0 Hchan1
               (free_irq_releases _ _ _ Hown)) in Hstart.
    injection Hstart as <- <- _. split; [reflexivity | now left]. }
  split; [now rewrite Hctlr |].
  split; [unfold pending; now rewrite Hctlr, Hchan1, Hnone |].
  intros wf Hc Hr Hio Hm Ht os Hon.
  apply run_agree with (link := link); [| exact Hon].
  unfold agree. rewrite Hctlr, Hc, Hchan1, Hchan0.
  now repeat split.
Qed.

Lemma stop_then_start_fresh_witness :
  mhu_probe Sample.pdev = inr Sample.the_ctlr /\
  descends Sample.the_ctlr Sample.answered /\
  channels Sample.the_ctlr !! 0%nat = Some Sample.idle_chan /\
  pending Sample.answered 0 = Some Sample.small /\
  outputs (mhu_shutdown 0 Sample.answered) =
    Some (tt, [EvStoreData 0 None; EvFreeIrq 36 0]).
Proof.
  assert (H1 : mhu_probe Sample.pdev = inr Sample.the_ctlr) by reflexivity.
  assert (H2 : descends Sample.the_ctlr Sample.answered).
  { split; [reflexivity |]. split; [reflexivity |].
    repeat constructor. }
  assert (H3 : channels Sample.the_ctlr !! 0%nat = Some Sample.idle_chan)
    by reflexivity.
  split; [exact H1 |]. split; [exact H2 |]. split; [exact H3 |].
  split; [reflexivity |].
  destruct (stop_then_start_fresh _ _ _ _ _ H1 H2 H3) as (w1 & Hstop & _).
  now rewrite Hstop.
Defined.

(** * Further properties of the driver *)

(** A run is determined by what it returns, what it logs and where it
    ends. *)
Lemma outputs_after {A} (m : M A) w a l :
  outputs (m w) = Some (a, l) -> m w = Some (a, after (m w) w, l).
Proof.
  destruct (m w) as [[[a' w'] l'] |]; cbn; [| discriminate].
  now intros [= -> ->].
Defined.

(** ** Register map *)

(** X1. The twelve doorbell registers of the two channels are distinct,
    8-byte aligned and at least 8 bytes apart: no 32-bit access to one of
    them touches another. *)
Theorem registers_do_not_alias dir k ch dir' k' ch' :
  valid_channel ch -> valid_channel ch' ->
  reg_offset dir k ch mod 8 = 0 /\
  (reg_offset dir k ch = reg_offset dir' k' ch' ->
   dir = dir' /\ k = k' /\ ch = ch') /\
  ((dir, k, ch) <> (dir', k', ch') ->
   reg_offset dir k ch + 8 <= reg_offset dir' k' ch' \/
   reg_offset dir' k' ch' + 8 <= reg_offset dir k ch).
Proof.
  unfold valid_channel, CHANNEL_MAX. intros Hch Hch'.
  assert (Hc : ch = 0 \/ ch = 1) by lia.
  assert (Hc' : ch' = 0 \/ ch' = 1) by lia.
  destruct Hc as [-> | ->], Hc' as [-> | ->], dir, dir', k, k';
    (split; [reflexivity |]);
    (split; [intros H; first [now repeat split | discriminate H]
            | intros H; first [now elim H | now (vm_compute; left; discriminate)
                               | now (vm_compute; right; discriminate)]]).
Qed.

Lemma registers_do_not_alias_witness :
  valid_channel 0 /\ valid_channel 1 /\
  (reg_offset Receive Clear 0 + 8 <= reg_offset Receive Status 1 \/
   reg_offset Receive Status 1 + 8 <= reg_offset Receive Clear 0).
Proof.
  assert (H0 : valid_channel 0) by (unfold valid_channel, CHANNEL_MAX; lia).
  assert (H1 : valid_channel 1) by (unfold valid_channel, CHANNEL_MAX; lia).
  split; [exact H0 |]. split; [exact H1 |].
  apply (registers_do_not_alias Receive Clear 0 Receive Status 1 H0 H1).
  discriminate.
Defined.

(** X2. The four payload slots tile the payload window: every offset below
    [CHANNEL_MAX * PAYLOAD_OFFSET] lies in the slot of exactly one channel
    and direction, and the transmit slot of a channel ends where the receive
    slot of the next begins. *)
Theorem payload_slots_tile a :
  0 <= a < CHANNEL_MAX * PAYLOAD_OFFSET ->
  (exists dir ch,
     valid_channel ch /\ in_slot dir ch a /\
     forall dir' ch',
       valid_channel ch' -> in_slot dir' ch' a -> dir' = dir /\ ch' = ch) /\
  forall ch,
    payload_offset Transmit ch + PAYLOAD_MAX_SIZE = payload_offset Receive (ch + 1).
Proof.
  unfold CHANNEL_MAX, PAYLOAD_OFFSET. intros Ha.
  split; [| intros ch; cbn; unfold TX_PAYLOAD, RX_PAYLOAD, PAYLOAD_OFFSET,
                         PAYLOAD_MAX_SIZE; lia].
  assert (Hcase : (0 <= a < 0x200) \/ (0x200 <= a < 0x400) \/
                  (0x400 <= a < 0x600) \/ (0x600 <= a < 0x800)) by lia.
  destruct Hcase as [H | [H | [H | H]]];
    [exists Receive, 0 | exists Transmit, 0
     | exists Receive, 1 | exists Transmit, 1];
    (split; [unfold valid_channel, CHANNEL_MAX; lia |]);
    (split; [unfold in_slot; cbn; unfold TX_PAYLOAD, RX_PAYLOAD,
               PAYLOAD_OFFSET, PAYLOAD_MAX_SIZE; lia |]);
    intros dir' ch' Hv Hin; unfold valid_channel, CHANNEL_MAX in Hv;
    unfold in_slot in Hin;
    destruct dir'; cbn in Hin;
    unfold TX_PAYLOAD, RX_PAYLOAD, PAYLOAD_OFFSET, PAYLOAD_MAX_SIZE in Hin;
    (split; [first [reflexivity | exfalso; lia] | lia]).
Qed.

Lemma payload_slots_tile_witness :
  0 <= 0x5ff < CHANNEL_MAX * PAYLOAD_OFFSET /\
  exists dir ch, valid_channel ch /\ in_slot dir ch 0x5ff.
Proof.
  assert (H : 0 <= 0x5ff < CHANNEL_MAX * PAYLOAD_OFFSET)
    by (unfold CHANNEL_MAX, PAYLOAD_OFFSET; lia).
  split; [exact H |].
  destruct (payload_slots_tile 0x5ff H) as [(dir & ch & Hv & Hin & _) _].
  exists dir, ch. now split.
Defined.

(** ** Construction *)

(** X3. [mhu_probe] succeeds exactly when both memory resources are there
    and both channels have a non-negative interrupt number; the controller
    then carries the two bases and two channels, numbered by position, each
    wired to its interrupt and with nothing pending.  Otherwise the result
    is [-ENXIO]. *)
Theorem mhu_probe_outcome pdev :
  match mhu_probe pdev with
  | inr c =>
      mem_resource pdev 0%nat = Some (mbox_base c) /\
      mem_resource pdev 1%nat = Some (payload_base c) /\
      0 <= platform_get_irq pdev 0%nat /\
      0 <= platform_get_irq pdev 1%nat /\
      channels c =
        [ {| index := 0; rx_irq := platform_get_irq pdev 0%nat; data := None |};
          {| index := 1; rx_irq := platform_get_irq pdev 1%nat; data := None |} ]
  | inl e =>
      e = - ENXIO /\
      (mem_resource pdev 0%nat = None \/ mem_resource pdev 1%nat = None \/
       platform_get_irq pdev 0%nat < 0 \/ platform_get_irq pdev 1%nat < 0)
  end.
Proof.
  unfold mhu_probe.
  destruct (mem_resource pdev 0%nat) as [mb |]; [| now split; [| left]].
  destruct (mem_resource pdev 1%nat) as [pb |]; [| now split; [| right; left]].
  change (Z.to_nat CHANNEL_MAX) with 2%nat. cbn [probe_channels].
  destruct (Z.ltb_spec (platform_get_irq pdev 0%nat) 0) as [H0 | H0];
    [split; [reflexivity | tauto] |].
  destruct (Z.ltb_spec (platform_get_irq pdev 1%nat) 0) as [H1 | H1];
    [split; [reflexivity | tauto] |].
  cbn. repeat split; assumption.
Qed.

Lemma probe_channels_length pdev : forall n from cs,
  probe_channels pdev from n = Some cs -> length cs = n.
Proof.
  induction n as [| n IH]; intros from cs Hp; cbn in Hp.
  - now injection Hp as <-.
  - destruct (platform_get_irq pdev from <? 0); [discriminate |].
    destruct (probe_channels pdev (S from) n) as [cs' |] eqn:Hrest; [| discriminate].
    injection Hp as <-. cbn. now rewrite (IH _ _ Hrest).
Qed.

Lemma mhu_probe_wiring pdev c :
  mhu_probe pdev = inr c ->
  mem_resource pdev 0%nat = Some (mbox_base c) /\
  mem_resource pdev 1%nat = Some (payload_base c) /\
  length (channels c) = 2%nat /\
  forall i chan,
    channels c !! i = Some chan ->
    chan = {| index := Z.of_nat i; rx_irq := platform_get_irq pdev i;
              data := None |}.
Proof.
  unfold mhu_probe. intros Hp.
  destruct (mem_resource pdev 0%nat); [| discriminate].
  destruct (mem_resource pdev 1%nat); [| discriminate].
  destruct (probe_channels pdev 0 (Z.to_nat CHANNEL_MAX)) as [cs |] eqn:Hcs;
    [| discriminate].
  injection Hp as <-. cbn [mbox_base payload_base channels].
  do 2 (split; [reflexivity |]).
  split; [apply (probe_channels_length _ _ _ _ Hcs) |].
  intros i chan Hi. apply (probe_channels_fresh _ _ _ _ _ _ Hcs Hi).
Qed.

(** X4. Index, interrupt line and the two bases are fixed by [mhu_probe]:
    after any sequence of Send, Start, Stop, LastTransmitDone, interrupts
    and moves of the peer, the controller still has its two channels,
    channel [i] still has index [i] and the line the platform gave it, and
    the bases are the mapped resources. *)
Theorem wiring_is_permanent pdev c r io mem os rs w l :
  mhu_probe pdev = inr c ->
  run os (boot c r io mem) = Some (rs, w, l) ->
  mem_resource pdev 0%nat = Some (mbox_base (ctlr w)) /\
  mem_resource pdev 1%nat = Some (payload_base (ctlr w)) /\
  length (channels (ctlr w)) = 2%nat /\
  forall i chan,
    channels (ctlr w) !! i = Some chan ->
    index chan = Z.of_nat i /\ rx_irq chan = platform_get_irq pdev i.
Proof.
  intros Hprobe Hrun.
  destruct (run_descends c os _ _ _ _ (boot_descends c r io mem) Hrun)
    as (Hmb & Hpb & Hcs).
  destruct (mhu_probe_wiring pdev c Hprobe) as (Hm0 & Hm1 & Hlen & Hwired).
  rewrite Hmb, Hpb. split; [exact Hm0 |]. split; [exact Hm1 |].
  split; [now rewrite (Forall2_length _ _ _ Hcs) |].
  intros i chan Hi.
  destruct (Forall2_lookup_l _ _ _ _ _ Hcs Hi) as (chan0 & Hi0 & Hidx & Hirq).
  rewrite Hidx, Hirq, (Hwired i chan0 Hi0). now split.
Qed.


Lemma wiring_is_permanent_witness :
  mhu_probe Sample.pdev = inr Sample.the_ctlr /\
  run Sample.scenario Sample.w0 =
    Some ([RInt 0; RInt 0; RUnit; RIrq IRQ_HANDLED], Sample.played,
          [EvRequestIrq 36 0;
           EvStoreData 0 (Some Sample.small);
           EvMemcpyToIo (0x2e000000 + 0x200) 0x1000 4;
           EvWritel 1 (0x2b1f0000 + 0x108);
           EvMemcpyFromIo 0x2000 0x2e000000 4;
           EvStoreData 0 None;
           EvReceivedData 0 Sample.small;
           EvWritel 0xFFFFFFFF (0x2b1f0000 + 0x10)]) /\
  length (channels (ctlr Sample.played)) = 2%nat.
Proof.
  assert (H1 : mhu_probe Sample.pdev = inr Sample.the_ctlr) by reflexivity.
  split; [exact H1 |].
  match goal with
  | |- ?R /\ _ =>
      assert (Hrun : R) by (apply outputs_after; vm_compute; reflexivity)
  end.
  split; [exact Hrun |].
  exact (proj1 (proj2 (proj2
    (wiring_is_permanent Sample.pdev Sample.the_ctlr (fun _ => 0)
       (fun _ => Byte.xff) Sample.pattern Sample.scenario _ _ _ H1 Hrun)))).
Defined.

(** ** The interrupt handler, path by path *)

(** X5. What the handler returns and whether it acts is decided by three
    tests alone.  It acts (copy, store, call-out, acknowledge) exactly when
    the receive status is non-zero, the line is the channel's and a
    descriptor is pending.  It returns [IRQ_NONE] exactly when the status is
    non-zero, the line is the channel's and nothing is pending.  In every
    other case, also with a descriptor pending, it returns [IRQ_HANDLED]
    and leaves the state, the pending descriptor included, as it was. *)
Theorem handler_decision w link chan irq :
  channels (ctlr w) !! link = Some chan ->
  exists r w' l,
    mbox_handler irq link w = Some (r, w', l) /\
    (l <> [] <->
     rx_status_of w chan <> 0 /\ irq = rx_irq chan /\ data chan <> None) /\
    (r = IRQ_NONE <->
     rx_status_of w chan <> 0 /\ irq = rx_irq chan /\ data chan = None) /\
    (l = [] -> w' = w).
Proof.
  intros Hchan.
  destruct (Z.eq_dec (rx_status_of w chan) 0) as [Hs | Hs].
  { exists IRQ_HANDLED, w, [].
    split; [apply (handler_not_mine w link chan Hchan irq); now left |].
    repeat split; try tauto; try discriminate; intros; tauto. }
  destruct (Z.eq_dec irq (rx_irq chan)) as [Hi | Hi].
  2:{ exists IRQ_HANDLED, w, [].
      split; [apply (handler_not_mine w link chan Hchan irq); now right |].
      repeat split; try tauto; try discriminate; intros; tauto. }
  destruct (data chan) as [d |] eqn:Hdata.
  2:{ exists IRQ_NONE, w, [].
      split; [apply (handler_spurious w link chan Hchan irq Hs Hi Hdata) |].
      repeat split; try tauto; try discriminate; intros; tauto. }
  destruct (Z.eq_dec (rx_buf d) 0) as [Hb | Hb].
  - do 3 eexists.
    split; [apply (handler_notify_only w link chan Hchan irq d Hs Hi Hdata Hb) |].
    split; [split; [intros _; repeat split; [exact Hs | exact Hi | discriminate]
                   | discriminate] |].
    split; [split; [discriminate | intros (_ & _ & [=])] | discriminate].
  - do 3 eexists.
    split; [apply (handler_deliver w link chan Hchan irq d Hs Hi Hdata Hb) |].
    split; [split; [intros _; repeat split; [exact Hs | exact Hi | discriminate]
                   | discriminate] |].
    split; [split; [discriminate | intros (_ & _ & [=])] | discriminate].
Qed.

Lemma handler_decision_witness :
  channels (ctlr Sample.answered) !! 0%nat = Some Sample.armed_chan /\
  outputs (mbox_handler 37 0 Sample.answered) = Some (IRQ_HANDLED, []) /\
  pending (after (mbox_handler 37 0 Sample.answered) Sample.answered) 0 =
    Some Sample.small.
Proof.
  assert (H1 : channels (ctlr Sample.answered) !! 0%nat = Some Sample.armed_chan)
    by reflexivity.
  split; [exact H1 |].
  destruct (handler_decision Sample.answered 0 Sample.armed_chan 37 H1)
    as (r & w' & l & Hrun & Hl & Hr & Hsame).
  assert (Hnil : l = []).
  { destruct l as [| e l]; [reflexivity |].
    destruct (proj1 Hl) as (_ & Hirq & _); [discriminate | discriminate Hirq]. }
  assert (Hret : r = IRQ_HANDLED).
  { destruct r; [| reflexivity].
    destruct (proj1 Hr eq_refl) as (_ & Hirq & _). discriminate Hirq. }
  rewrite Hrun. cbn [outputs after]. rewrite (Hsame Hnil), Hnil, Hret.
  split; reflexivity.
Defined.

(** X6. A pending descriptor without a receive buffer is delivered without
    any copy, whatever its [rx_size]: memory and the payload window stay as
    they were, the slot is emptied, the client is called with the
    descriptor, and the doorbell is acknowledged. *)
Theorem handler_notifies_without_buffer w link chan d irq :
  channels (ctlr w) !! link = Some chan ->
  data chan = Some d ->
  rx_buf d = 0 ->
  irq = rx_irq chan ->
  rx_status_of w chan <> 0 ->
  exists w',
    mbox_handler irq link w =
    Some (IRQ_HANDLED, w',
          [EvStoreData link None;
           EvReceivedData link d;
           EvWritel 0xFFFFFFFF
             (mbox_base (ctlr w) + RX_CLEAR (index chan) (index chan))]) /\
    ram w' = ram w /\ iomem w' = iomem w /\
    pending w' link = None /\
    rx_status_of w' chan = 0.
Proof.
  intros Hchan Hdata Hbuf Hirq Hst.
  eexists. split;
    [apply (handler_notify_only w link chan Hchan irq d Hst Hirq Hdata Hbuf) |].
  do 2 (split; [reflexivity |]). split.
  - erewrite (pending_written w _ link chan Hchan None link) by reflexivity.
    now rewrite Nat.eqb_refl.
  - unfold rx_status_of.
    cbn [regs ctlr mbox_base set_regs stored set_channels].
    rewrite ack_rx. apply to_u32_cleared.
Qed.

Lemma handler_notifies_without_buffer_witness :
  channels (ctlr Sample.hushed) !! 0%nat = Some Sample.silent_chan /\
  rx_status_of Sample.hushed Sample.silent_chan <> 0 /\
  outputs (mbox_handler 36 0 Sample.hushed) =
    Some (IRQ_HANDLED,
          [EvStoreData 0 None; EvReceivedData 0 Sample.silent;
           EvWritel 0xFFFFFFFF (0x2b1f0000 + 0x10)]).
Proof.
  assert (H1 : channels (ctlr Sample.hushed) !! 0%nat = Some Sample.silent_chan)
    by reflexivity.
  assert (H2 : rx_status_of Sample.hushed Sample.silent_chan <> 0)
    by (vm_compute; discriminate).
  split; [exact H1 |]. split; [exact H2 |].
  destruct (handler_notifies_without_buffer Sample.hushed 0 Sample.silent_chan
              Sample.silent 36 H1 eq_refl eq_refl eq_refl H2) as (w' & Hrun & _).
  now rewrite Hrun.
Defined.

(** ** Send, path by path *)

(** X7. A descriptor without a transmit buffer is sent as a bare doorbell,
    whatever its [tx_size]: the payload window and memory stay as they
    were, the descriptor is pending, and the command word is written to the
    transmit set register. *)
Theorem send_rings_without_buffer w link chan d :
  channels (ctlr w) !! link = Some chan ->
  tx_buf d = 0 ->
  exists w',
    mhu_send_data link (Some d) w =
    Some (0, w',
          [EvStoreData link (Some d);
           EvWritel (to_u32 (cmd d))
             (mbox_base (ctlr w) + TX_SET (index chan) (index chan))]) /\
    iomem w' = iomem w /\ ram w' = ram w /\
    pending w' link = Some d /\
    tx_status_of w' chan = to_u32 (Z.lor (regs w (mbox_base (ctlr w) +
                                   TX_STATUS (index chan) (index chan)))
                                  (to_u32 (cmd d))).
Proof.
  intros Hchan Hbuf.
  eexists. split; [apply (send_bare w link chan Hchan d Hbuf) |].
  do 2 (split; [reflexivity |]). split.
  - erewrite (pending_written w _ link chan Hchan (Some d) link) by reflexivity.
    now rewrite Nat.eqb_refl.
  - unfold tx_status_of.
    cbn [regs ctlr mbox_base set_regs stored set_channels].
    now rewrite ring_tx.
Qed.

Lemma send_rings_without_buffer_witness :
  channels (ctlr Sample.w0) !! 0%nat = Some Sample.idle_chan /\
  tx_buf Sample.silent = 0 /\
  outputs (mhu_send_data 0 (Some Sample.silent) Sample.w0) =
    Some (0, [EvStoreData 0 (Some Sample.silent);
              EvWritel 0 (0x2b1f0000 + 0x108)]).
Proof.
  assert (H1 : channels (ctlr Sample.w0) !! 0%nat = Some Sample.idle_chan)
    by reflexivity.
  split; [exact H1 |]. split; [reflexivity |].
  destruct (send_rings_without_buffer Sample.w0 0 Sample.idle_chan
              Sample.silent H1 eq_refl) as (w' & Hrun & _).
  now rewrite Hrun.
Defined.

(** ** Sizes are not checked *)

(** X8. Send copies [tx_size] bytes whatever the size: every byte of the
    client buffer lands at its offset from the start of the transmit slot,
    and the bytes from 0x200 on land in the receive slot of the next
    channel. *)
Theorem send_overruns_into_next_slot w link chan d r w' l :
  channels (ctlr w) !! link = Some chan ->
  tx_buf d <> 0 ->
  mhu_send_data link (Some d) w = Some (r, w', l) ->
  (forall i,
     0 <= i < Z.of_N (tx_size d) ->
     iomem w' (payload_base (ctlr w) + payload_offset Transmit (index chan) + i)
     = ram w (tx_buf d + i)) /\
  (forall j,
     0 <= j -> PAYLOAD_MAX_SIZE + j < Z.of_N (tx_size d) ->
     iomem w' (payload_base (ctlr w) + payload_offset Receive (index chan + 1) + j)
     = ram w (tx_buf d + PAYLOAD_MAX_SIZE + j)).
Proof.
  intros Hchan Hbuf Hrun.
  rewrite (send_payload w link chan Hchan d Hbuf) in Hrun.
  injection Hrun as _ <- _.
  cbn [iomem set_regs set_iomem stored set_channels payload_offset].
  assert (Hcopy : forall i,
    0 <= i < Z.of_N (tx_size d) ->
    copy_bytes (iomem w) (ram w) (payload_base (ctlr w) + TX_PAYLOAD (index chan))
      (tx_buf d) (tx_size d)
      (payload_base (ctlr w) + TX_PAYLOAD (index chan) + i)
    = ram w (tx_buf d + i)) by (intros i Hi; now apply copy_bytes_inside).
  split; [exact Hcopy |].
  intros j Hj Hlt.
  replace (payload_base (ctlr w) + RX_PAYLOAD (index chan + 1) + j)
    with (payload_base (ctlr w) + TX_PAYLOAD (index chan) + (PAYLOAD_MAX_SIZE + j))
    by (unfold RX_PAYLOAD, TX_PAYLOAD, PAYLOAD_OFFSET, PAYLOAD_MAX_SIZE; lia).
  rewrite Hcopy by (unfold PAYLOAD_MAX_SIZE in *; lia).
  f_equal. lia.
Qed.

Lemma send_overruns_into_next_slot_witness :
  channels (ctlr Sample.w0) !! 0%nat = Some Sample.idle_chan /\
  tx_buf Sample.oversized <> 0 /\
  iomem (after (mhu_send_data 0 (Some Sample.oversized) Sample.w0) Sample.w0)
        (0x2e000000 + payload_offset Receive 1 + 0)
  = ram Sample.w0 (0x1000 + PAYLOAD_MAX_SIZE + 0).
Proof.
  assert (H1 : channels (ctlr Sample.w0) !! 0%nat = Some Sample.idle_chan)
    by reflexivity.
  assert (H2 : tx_buf Sample.oversized <> 0) by (vm_compute; discriminate).
  split; [exact H1 |]. split; [exact H2 |].
  destruct (send_accepts Sample.w0 0 Sample.idle_chan Sample.oversized H1)
    as (w1 & l1 & Hrun).
  rewrite Hrun. cbn [after].
  apply (proj2 (send_overruns_into_next_slot Sample.w0 0 Sample.idle_chan
                  Sample.oversized 0 w1 l1 H1 H2 Hrun) 0);
    [lia | vm_compute; reflexivity].
Defined.

(** X9. The handler copies [rx_size] bytes whatever the size: the bytes
    from 0x200 on are read from the transmit slot of the same channel. *)
Theorem handler_overreads_transmit_slot w link chan d irq r w' l :
  channels (ctlr w) !! link = Some chan ->
  data chan = Some d ->
  rx_buf d <> 0 ->
  irq = rx_irq chan ->
  rx_status_of w chan <> 0 ->
  mbox_handler irq link w = Some (r, w', l) ->
  (forall i,
     0 <= i < Z.of_N (rx_size d) ->
     ram w' (rx_buf d + i)
     = iomem w (payload_base (ctlr w) + payload_offset Receive (index chan) + i)) /\
  (forall j,
     0 <= j -> PAYLOAD_MAX_SIZE + j < Z.of_N (rx_size d) ->
     ram w' (rx_buf d + PAYLOAD_MAX_SIZE + j)
     = iomem w (payload_base (ctlr w) + payload_offset Transmit (index chan) + j)).
Proof.
  intros Hchan Hdata Hbuf Hirq Hst Hrun.
  rewrite (handler_deliver w link chan Hchan irq d Hst Hirq Hdata Hbuf) in Hrun.
  injection Hrun as _ <- _.
  cbn [ram set_regs set_ram stored set_channels payload_offset].
  assert (Hcopy : forall i,
    0 <= i < Z.of_N (rx_size d) ->
    copy_bytes (ram w) (iomem w) (rx_buf d)
      (payload_base (ctlr w) + RX_PAYLOAD (index chan)) (rx_size d)
      (rx_buf d + i)
    = iomem w (payload_base (ctlr w) + RX_PAYLOAD (index chan) + i))
    by (intros i Hi; now apply copy_bytes_inside).
  split; [exact Hcopy |].
  intros j Hj Hlt.
  replace (rx_buf d + PAYLOAD_MAX_SIZE + j)
    with (rx_buf d + (PAYLOAD_MAX_SIZE + j)) by lia.
  rewrite Hcopy by (unfold PAYLOAD_MAX_SIZE in *; lia).
  f_equal. unfold RX_PAYLOAD, TX_PAYLOAD, PAYLOAD_OFFSET, PAYLOAD_MAX_SIZE. lia.
Qed.

Lemma handler_overreads_transmit_slot_witness :
  channels (ctlr Sample.overfed) !! 0%nat = Some Sample.greedy_chan /\
  rx_buf Sample.greedy <> 0 /\
  rx_status_of Sample.overfed Sample.greedy_chan <> 0 /\
  outputs (mbox_handler 36 0 Sample.overfed) =
    Some (IRQ_HANDLED,
          [EvMemcpyFromIo 0x3000 0x2e000000 0x201; EvStoreData 0 None;
           EvReceivedData 0 Sample.greedy;
           EvWritel 0xFFFFFFFF (0x2b1f0000 + 0x10)]) /\
  ram (after (mbox_handler 36 0 Sample.overfed) Sample.overfed)
      (0x3000 + PAYLOAD_MAX_SIZE + 0)
  = iomem Sample.overfed (0x2e000000 + payload_offset Transmit 0 + 0).
Proof.
  assert (H1 : channels (ctlr Sample.overfed) !! 0%nat = Some Sample.greedy_chan)
    by reflexivity.
  assert (H2 : rx_buf Sample.greedy <> 0) by (vm_compute; discriminate).
  assert (H3 : rx_status_of Sample.overfed Sample.greedy_chan <> 0)
    by (vm_compute; discriminate).
  split; [exact H1 |]. split; [exact H2 |]. split; [exact H3 |].
  assert (Hout : outputs (mbox_handler 36 0 Sample.overfed) =
    Some (IRQ_HANDLED,
          [EvMemcpyFromIo 0x3000 0x2e000000 0x201; EvStoreData 0 None;
           EvReceivedData 0 Sample.greedy;
           EvWritel 0xFFFFFFFF (0x2b1f0000 + 0x10)]))
    by (vm_compute; reflexivity).
  split; [exact Hout |].
  apply (proj2 (handler_overreads_transmit_slot Sample.overfed 0
                  Sample.greedy_chan Sample.greedy 36 _ _ _ H1 eq_refl H2
                  eq_refl H3 (outputs_after _ _ _ _ Hout)) 0);
    [lia | vm_compute; reflexivity].
Defined.

(** ** One notification per descriptor *)

(** With nothing pending the handler does nothing, whatever the hardware
    holds. *)
Lemma handler_idle w link chan irq :
  channels (ctlr w) !! link = Some chan -> data chan = None ->
  exists r, mbox_handler irq link w = Some (r, w, []).
Proof.
  intros Hchan Hdata.
  destruct (Z.eq_dec (rx_status_of w chan) 0) as [Hs | Hs];
    [exists IRQ_HANDLED; apply (handler_not_mine w link chan Hchan); now left |].
  destruct (Z.eq_dec irq (rx_irq chan)) as [Hi | Hi];
    [| exists IRQ_HANDLED; apply (handler_not_mine w link chan Hchan); now right].
  exists IRQ_NONE. now apply (handler_spurious w link chan Hchan).
Qed.

(** X10. A descriptor is handed to the client once.  After the handler has
    delivered it, and until the next Send, every further invocation of the
    handler on the channel has no effect at all, whichever line fires and
    whatever the peer has done to the doorbell and the payload window in
    between. *)
Theorem delivered_once w link chan d irq r w1 l :
  channels (ctlr w) !! link = Some chan ->
  data chan = Some d ->
  irq = rx_irq chan ->
  rx_status_of w chan <> 0 ->
  mbox_handler irq link w = Some (r, w1, l) ->
  count_events (is_received link) l = 1%nat /\
  forall w2 irq',
    ctlr w2 = ctlr w1 ->
    exists r', mbox_handler irq' link w2 = Some (r', w2, []).
Proof.
  intros Hchan Hdata Hirq Hst Hrun.
  assert (Hlog : count_events (is_received link) l = 1%nat /\
                 channels (ctlr w1) !! link = Some (set_data None chan)).
  { destruct (Z.eq_dec (rx_buf d) 0) as [Hb | Hb];
      [rewrite (handler_notify_only w link chan Hchan irq d Hst Hirq Hdata Hb) in Hrun
      | rewrite (handler_deliver w link chan Hchan irq d Hst Hirq Hdata Hb) in Hrun];
      injection Hrun as _ <- <-;
      (split; [unfold count_events; cbn; now rewrite Nat.eqb_refl |]);
      cbn [ctlr channels set_regs set_ram stored set_channels];
      apply list_lookup_insert_eq; eapply lookup_lt_Some, Hchan. }
  destruct Hlog as [Hone Hchan1]. split; [exact Hone |].
  intros w2 irq' Hctlr.
  apply (handler_idle w2 link (set_data None chan)); [| reflexivity].
  now rewrite Hctlr.
Qed.

Lemma delivered_once_witness :
  channels (ctlr Sample.answered) !! 0%nat = Some Sample.armed_chan /\
  rx_status_of Sample.answered Sample.armed_chan <> 0 /\
  let w1 := after (mbox_handler 36 0 Sample.answered) Sample.answered in
  exists r', mbox_handler 36 0 (Peer.ring 0 1 [] w1)
             = Some (r', Peer.ring 0 1 [] w1, []).
Proof.
  assert (H1 : channels (ctlr Sample.answered) !! 0%nat = Some Sample.armed_chan)
    by reflexivity.
  assert (H2 : rx_status_of Sample.answered Sample.armed_chan <> 0)
    by (vm_compute; discriminate).
  split; [exact H1 |]. split; [exact H2 |]. intros w1.
  assert (Hout : outputs (mbox_handler 36 0 Sample.answered) =
    Some (IRQ_HANDLED,
          [EvMemcpyFromIo 0x2000 0x2e000000 4; EvStoreData 0 None;
           EvReceivedData 0 Sample.small;
           EvWritel 0xFFFFFFFF (0x2b1f0000 + 0x10)]))
    by (vm_compute; reflexivity).
  apply (proj2 (delivered_once Sample.answered 0 Sample.armed_chan Sample.small
                  36 _ _ _ H1 eq_refl eq_refl H2 (outputs_after _ _ _ _ Hout))).
  reflexivity.
Defined.

(** X11. Stop cancels a pending receive for good: after it, and until the
    next Send, no invocation of the handler on the channel copies, writes or
    calls the client, whichever line fires and whatever the peer does. *)
Theorem shutdown_cancels w link chan w1 l :
  channels (ctlr w) !! link = Some chan ->
  mhu_shutdown link w = Some (tt, w1, l) ->
  count_events (is_received link) l = 0%nat /\
  forall w2 irq,
    ctlr w2 = ctlr w1 ->
    exists r, mbox_handler irq link w2 = Some (r, w2, []).
Proof.
  intros Hchan Hrun.
  rewrite (shutdown_runs w link chan Hchan) in Hrun.
  injection Hrun as <- <-. split; [reflexivity |].
  intros w2 irq Hctlr.
  apply (handler_idle w2 link (set_data None chan)); [| reflexivity].
  rewrite Hctlr. cbn [ctlr channels set_irq_table stored set_channels].
  apply list_lookup_insert_eq. eapply lookup_lt_Some, Hchan.
Qed.

Lemma shutdown_cancels_witness :
  channels (ctlr Sample.answered) !! 0%nat = Some Sample.armed_chan /\
  let w1 := after (mhu_shutdown 0 Sample.answered) Sample.answered in
  exists r, mbox_handler 36 0 w1 = Some (r, w1, []).
Proof.
  assert (H1 : channels (ctlr Sample.answered) !! 0%nat = Some Sample.armed_chan)
    by reflexivity.
  split; [exact H1 |]. intros w1.
  assert (Hout : outputs (mhu_shutdown 0 Sample.answered) =
                 Some (tt, [EvStoreData 0 None; EvFreeIrq 36 0]))
    by (vm_compute; reflexivity).
  apply (proj2 (shutdown_cancels Sample.answered 0 Sample.armed_chan _ _ H1
                  (outputs_after _ _ _ _ Hout))).
  reflexivity.
Defined.

Section Counting.

Variable k : nat.

Let received := count_events (is_received k).
Let submitted := count_events (is_submitted k).

Lemma count_events_app f l1 l2 :
  count_events f (l1 ++ l2) = (count_events f l1 + count_events f l2)%nat.
Proof. unfold count_events. now rewrite List.filter_app, List.length_app. Qed.

(** One step: a notification uses up the pending descriptor, and only a
    Send supplies one. *)
Lemma step_balance o w r w' l :
  step o w = Some (r, w', l) ->
  (received l + occupied (pending w' k) <=
   submitted l + occupied (pending w k))%nat.
Proof.
  intros Hstep. subst received submitted.
  destruct o as [link msg | link | link | link | irq link | ch v bs | ch];
    cbn in Hstep; unfold returning in Hstep.
  6: injection Hstep as _ <- <-;
    change (pending (Peer.ring ch v bs w) k) with (pending w k); cbn; lia.
  6: injection Hstep as _ <- <-;
    change (pending (Peer.ack ch w) k) with (pending w k); cbn; lia.
  all: destruct (channels (ctlr w) !! link) as [chan |] eqn:Hchan;
    [| unfold_driver_in Hstep; drive_in Hchan Hstep; discriminate].
  - destruct msg as [d |].
    + destruct (Z.eq_dec (tx_buf d) 0) as [Hb | Hb];
        [rewrite (send_bare _ _ _ Hchan _ Hb) in Hstep
        | rewrite (send_payload _ _ _ Hchan _ Hb) in Hstep];
        injection Hstep as _ <- <-;
        erewrite (pending_written w _ link chan Hchan (Some d) k) by reflexivity;
        unfold count_events; cbn; rewrite (Nat.eqb_sym link k);
        destruct (Nat.eqb k link); cbn; destruct (pending w k); cbn; lia.
    + rewrite (send_null _ _ _ Hchan) in Hstep.
      injection Hstep as _ <- <-. cbn. lia.
  - destruct (irq_claimed (rx_irq chan) (irq_table w)) eqn:Hc;
      [rewrite (startup_busy _ _ _ Hchan Hc) in Hstep
      | rewrite (startup_claims _ _ _ Hchan Hc) in Hstep];
      injection Hstep as _ <- <-; unfold pending; cbn; lia.
  - rewrite (shutdown_runs _ _ _ Hchan) in Hstep.
    injection Hstep as _ <- <-.
    erewrite (pending_written w _ link chan Hchan None k) by reflexivity.
    unfold count_events. cbn.
    destruct (Nat.eqb k link); cbn; destruct (pending w k); cbn; lia.
  - rewrite (last_tx_done_poll _ _ _ Hchan) in Hstep.
    injection Hstep as _ <- <-. cbn. lia.
  - destruct (Z.eq_dec (rx_status_of w chan) 0) as [Hs | Hs];
      [rewrite (handler_not_mine _ _ _ Hchan irq (or_introl Hs)) in Hstep;
       injection Hstep as _ <- <-; cbn; lia |].
    destruct (Z.eq_dec irq (rx_irq chan)) as [Hi | Hi];
      [| rewrite (handler_not_mine _ _ _ Hchan irq (or_intror Hi)) in Hstep;
         injection Hstep as _ <- <-; cbn; lia].
    destruct (data chan) as [d |] eqn:Hdata;
      [| rewrite (handler_spurious _ _ _ Hchan irq Hs Hi Hdata) in Hstep;
         injection Hstep as _ <- <-; cbn; lia].
    assert (Hpend : k = link -> pending w k = Some d)
      by (intros ->; unfold pending; now rewrite Hchan).
    destruct (Z.eq_dec (rx_buf d) 0) as [Hb | Hb].
    + rewrite (handler_notify_only _ _ _ Hchan irq d Hs Hi Hdata Hb) in Hstep.
      injection Hstep as _ <- <-.
      erewrite (pending_written w _ link chan Hchan None k) by reflexivity.
      unfold count_events. cbn. rewrite (Nat.eqb_sym link k).
      destruct (Nat.eqb_spec k link) as [He | He];
        [rewrite (Hpend He); cbn; lia | cbn; lia].
    + rewrite (handler_deliver _ _ _ Hchan irq d Hs Hi Hdata Hb) in Hstep.
      injection Hstep as _ <- <-.
      set (mem := copy_bytes (ram w) (iomem w) (rx_buf d)
                    (payload_base (ctlr w) + RX_PAYLOAD (index chan)) (rx_size d)).
      erewrite (pending_written (set_ram mem w) _ link chan Hchan None k)
        by reflexivity.
      change (pending (set_ram mem w) k) with (pending w k).
      unfold count_events. cbn. rewrite (Nat.eqb_sym link k).
      destruct (Nat.eqb_spec k link) as [He | He];
        [rewrite (Hpend He); cbn; lia | cbn; lia].
Qed.

End Counting.

(** X12. Over any sequence of operations, the client of a channel is called
    at most once for each descriptor submitted: the notifications logged for
    the channel, plus the descriptor still pending at the end, never exceed
    the descriptors stored by Send, plus the one pending at the start. *)
Theorem notifications_bounded_by_sends k os : forall w rs w' l,
  run os w = Some (rs, w', l) ->
  (count_events (is_received k) l + occupied (pending w' k) <=
   count_events (is_submitted k) l + occupied (pending w k))%nat.
Proof.
  induction os as [| o os IH]; intros w rs w' l Hrun; cbn in Hrun.
  - injection Hrun as _ <- <-. cbn. lia.
  - destruct (step o w) as [[[r w1] l1] |] eqn:Hstep; [| discriminate].
    destruct (run os w1) as [[[rs' w2] l2] |] eqn:Hrest; [| discriminate].
    injection Hrun as _ <- <-.
    pose proof (step_balance k o w r w1 l1 Hstep) as H1.
    pose proof (IH w1 rs' w2 l2 Hrest) as H2.
    rewrite !count_events_app. lia.
Qed.

Lemma notifications_bounded_by_sends_witness :
  outputs (run (Sample.scenario ++ [OpPeerRing 0 1 []; OpIrq 36 0]) Sample.w0) =
    Some ([RInt 0; RInt 0; RUnit; RIrq IRQ_HANDLED; RUnit; RIrq IRQ_NONE],
          [EvRequestIrq 36 0;
           EvStoreData 0 (Some Sample.small);
           EvMemcpyToIo (0x2e000000 + 0x200) 0x1000 4;
           EvWritel 1 (0x2b1f0000 + 0x108);
           EvMemcpyFromIo 0x2000 0x2e000000 4;
           EvStoreData 0 None;
           EvReceivedData 0 Sample.small;
           EvWritel 0xFFFFFFFF (0x2b1f0000 + 0x10)]) /\
  (count_events (is_received 0)
     [EvRequestIrq 36 0;
      EvStoreData 0 (Some Sample.small);
      EvMemcpyToIo (0x2e000000 + 0x200) 0x1000 4;
      EvWritel 1 (0x2b1f0000 + 0x108);
      EvMemcpyFromIo 0x2000 0x2e000000 4;
      EvStoreData 0 None;
      EvReceivedData 0 Sample.small;
      EvWritel 0xFFFFFFFF (0x2b1f0000 + 0x10)] <= 1)%nat.
Proof.
  match goal with
  | |- ?R /\ _ => assert (Hout : R) by (vm_compute; reflexivity)
  end.
  split; [exact Hout |].
  pose proof (notifications_bounded_by_sends 0 _ _ _ _ _
                (outputs_after _ _ _ _ Hout)) as Hle.
  change (pending Sample.w0 0) with (@None mhu_data_buf) in Hle.
  cbn [occupied] in Hle.
  change (count_events (is_submitted 0) _) with 1%nat in Hle.
  lia.
Defined.

(** ** Channels apart *)

(** X13. A driver call on one channel never changes another channel: the
    record of every other channel, its pending descriptor included, is what
    it was. *)
Theorem other_channels_untouched o w r w' l link k :
  step o w = Some (r, w', l) ->
  on_link link o ->
  k <> link ->
  channels (ctlr w') !! k = channels (ctlr w) !! k.
Proof.
  intros Hstep Hon Hk.
  destruct (step_slot o w r w' l Hstep)
    as [Hsame | (link' & chan & x & Hchan & Hnew & Hwrite)];
    [now rewrite Hsame |].
  rewrite Hnew. apply list_lookup_insert_ne.
  destruct Hwrite; cbn in Hon; congruence.
Qed.

Lemma other_channels_untouched_witness :
  outputs (step (OpSend 0 (Some Sample.small)) Sample.w0) =
    Some (RInt 0, [EvStoreData 0 (Some Sample.small);
                   EvMemcpyToIo (0x2e000000 + 0x200) 0x1000 4;
                   EvWritel 1 (0x2b1f0000 + 0x108)]) /\
  channels (ctlr (after (step (OpSend 0 (Some Sample.small)) Sample.w0) Sample.w0))
    !! 1%nat = Some {| index := 1; rx_irq := 37; data := None |}.
Proof.
  match goal with
  | |- ?R /\ _ => assert (Hout : R) by (vm_compute; reflexivity)
  end.
  split; [exact Hout |].
  rewrite (other_channels_untouched _ _ _ _ _ 0%nat 1%nat
             (outputs_after _ _ _ _ Hout) eq_refl); [reflexivity | discriminate].
Defined.

(** ** Start twice *)

(** X14. Once Start has claimed the line of a channel, a further Start on
    that channel, or on any channel wired to the same line, returns
    [-EBUSY] and changes nothing. *)
Theorem startup_twice_busy w link chan w1 l link' chan' :
  channels (ctlr w) !! link = Some chan ->
  mhu_startup link w = Some (0, w1, l) ->
  channels (ctlr w) !! link' = Some chan' ->
  rx_irq chan' = rx_irq chan ->
  In (rx_irq chan, link) (irq_table w1) /\
  mhu_startup link' w1 = Some (- EBUSY, w1, []).
Proof.
  intros Hchan Hrun Hchan' Hline.
  destruct (irq_claimed (rx_irq chan) (irq_table w)) eqn:Hc;
    [rewrite (startup_busy w link chan Hchan Hc) in Hrun; discriminate |].
  rewrite (startup_claims w link chan Hchan Hc) in Hrun.
  injection Hrun as <- _. split; [now left |].
  apply (startup_busy _ link' chan'); [exact Hchan' |].
  rewrite Hline. cbn. now rewrite Z.eqb_refl.
Qed.

Lemma startup_twice_busy_witness :
  channels (ctlr Sample.w0) !! 0%nat = Some Sample.idle_chan /\
  outputs (mhu_startup 0 Sample.w0) = Some (0, [EvRequestIrq 36 0]) /\
  outputs (mhu_startup 0 (after (mhu_startup 0 Sample.w0) Sample.w0)) =
    Some (- EBUSY, []).
Proof.
  assert (H1 : channels (ctlr Sample.w0) !! 0%nat = Some Sample.idle_chan)
    by reflexivity.
  assert (Hout : outputs (mhu_startup 0 Sample.w0) = Some (0, [EvRequestIrq 36 0]))
    by (vm_compute; reflexivity).
  split; [exact H1 |]. split; [exact Hout |].
  destruct (startup_twice_busy Sample.w0 0 Sample.idle_chan _ _ 0%nat
              Sample.idle_chan H1 (outputs_after _ _ _ _ Hout) H1 eq_refl)
    as [_ Hbusy].
  now rewrite Hbusy.
Defined.

(** ** Doorbells apart *)

(** X15. The two directions and the channels do not disturb each other's
    doorbells: a Send changes no status register but the transmit status of
    its own channel, and the handler changes none but the receive status of
    its own channel. *)
Theorem doorbells_apart w link chan :
  channels (ctlr w) !! link = Some chan ->
  let mbox := mbox_base (ctlr w) in
  let idx := index chan in
  (forall msg r w' l,
     mhu_send_data link msg w = Some (r, w', l) ->
     forall s, s <> mbox + TX_STATUS idx idx -> regs w' s = regs w s) /\
  (forall irq r w' l,
     mbox_handler irq link w = Some (r, w', l) ->
     forall s, s <> mbox + RX_STATUS idx idx -> regs w' s = regs w s).
Proof.
  intros Hchan mbox idx. split.
  - intros [d |] r w' l Hrun s Hs.
    + assert (Hregs : regs w' =
        hw_writel mbox (regs w) (to_u32 (cmd d)) (mbox + TX_SET idx idx)).
      { destruct (Z.eq_dec (tx_buf d) 0) as [Hb | Hb];
          [rewrite (send_bare w link chan Hchan d Hb) in Hrun
          | rewrite (send_payload w link chan Hchan d Hb) in Hrun];
          now injection Hrun as _ <- _. }
      rewrite Hregs, hw_writel_set by apply TX_SET_decodes.
      destruct (Z.eqb_spec s (mbox + TX_SET idx idx - 0x08)) as [He | _];
        [| reflexivity].
      elim Hs. rewrite He. unfold TX_SET, TX_STATUS. lia.
    + rewrite (send_null w link chan Hchan) in Hrun. now injection Hrun as _ <- _.
  - intros irq r w' l Hrun s Hs.
    assert (Hregs : regs w' = regs w \/
      regs w' = hw_writel mbox (regs w) 0xFFFFFFFF (mbox + RX_CLEAR idx idx)).
    { destruct (Z.eq_dec (rx_status_of w chan) 0) as [Hst | Hst];
        [rewrite (handler_not_mine w link chan Hchan irq (or_introl Hst)) in Hrun;
         injection Hrun as _ <- _; now left |].
      destruct (Z.eq_dec irq (rx_irq chan)) as [Hi | Hi];
        [| rewrite (handler_not_mine w link chan Hchan irq (or_intror Hi)) in Hrun;
           injection Hrun as _ <- _; now left].
      destruct (data chan) as [d |] eqn:Hdata;
        [| rewrite (handler_spurious w link chan Hchan irq Hst Hi Hdata) in Hrun;
           injection Hrun as _ <- _; now left].
      destruct (Z.eq_dec (rx_buf d) 0) as [Hb | Hb];
        [rewrite (handler_notify_only w link chan Hchan irq d Hst Hi Hdata Hb) in Hrun
        | rewrite (handler_deliver w link chan Hchan irq d Hst Hi Hdata Hb) in Hrun];
        injection Hrun as _ <- _; now right. }
    destruct Hregs as [-> | ->]; [reflexivity |].
    rewrite hw_writel_clear by apply RX_CLEAR_decodes.
    destruct (Z.eqb_spec s (mbox + RX_CLEAR idx idx - 0x10)) as [He | _];
      [| reflexivity].
    elim Hs. rewrite He. unfold RX_CLEAR, RX_STATUS. lia.
Qed.

Lemma doorbells_apart_witness :
  channels (ctlr Sample.answered) !! 0%nat = Some Sample.armed_chan /\
  regs Sample.answered (0x2b1f0000 + 0x100) = 1 /\
  regs (after (mbox_handler 36 0 Sample.answered) Sample.answered)
       (0x2b1f0000 + 0x100) = 1.
Proof.
  assert (H1 : channels (ctlr Sample.answered) !! 0%nat = Some Sample.armed_chan)
    by reflexivity.
  assert (H2 : regs Sample.answered (0x2b1f0000 + 0x100) = 1)
    by (vm_compute; reflexivity).
  split; [exact H1 |]. split; [exact H2 |].
  assert (Hout : outputs (mbox_handler 36 0 Sample.answered) =
    Some (IRQ_HANDLED,
          [EvMemcpyFromIo 0x2000 0x2e000000 4; EvStoreData 0 None;
           EvReceivedData 0 Sample.small;
           EvWritel 0xFFFFFFFF (0x2b1f0000 + 0x10)]))
    by (vm_compute; reflexivity).
  rewrite (proj2 (doorbells_apart Sample.answered 0 Sample.armed_chan H1)
             36 _ _ _ (outputs_after _ _ _ _ Hout));
    [exact H2 | vm_compute; discriminate].
Defined.
